(** * What3Words geocoder (geopy/geocoders/what3words.py)

    A shallow embedding of the [What3Words] geocoder class and proofs of
    its behavioural properties: query validation by regular expression,
    request construction, response parsing and the mapping of API status
    codes to exceptions.

    Python text ([str]) is a sequence of Unicode code points; JSON values
    are a tagged union; exceptions and the transport trace are threaded
    through a small state-and-error monad. *)

From Stdlib Require Import List NArith ZArith Bool Lia Ascii String Floats SpecFloat.
From Stdlib Require DecimalString.
Import ListNotations.

Set Implicit Arguments.
Set Warnings "-register-all".

(** ** Text *)

(** A Python [str]: the list of its code points. *)
Definition str := list N.

(** A source literal (all literals of the module are ASCII). *)
Definition lit (s : string) : str := map N_of_ascii (list_ascii_of_string s).

Fixpoint str_eqb (a b : str) : bool :=
  match a, b with
  | [], [] => true
  | x :: a', y :: b' => N.eqb x y && str_eqb a' b'
  | _, _ => false
  end.

(** [sep.join(parts)]. *)
Fixpoint join (sep : str) (parts : list str) : str :=
  match parts with
  | [] => []
  | [p] => p
  | p :: rest => p ++ sep ++ join sep rest
  end.

Definition chr_dot : N := 46.
Definition chr_underscore : N := 95.
Definition chr_newline : N := 10.
Definition chr_space : N := 32.

(** ** Unicode character data

    The classification of the ASCII range is written out; what the
    interpreter's Unicode database says above it is a parameter. *)

Definition in_range (lo hi c : N) : bool := N.leb lo c && N.leb c hi.

Definition ascii_isdecimal (c : N) : bool := in_range 48 57 c.
Definition ascii_isalpha (c : N) : bool := in_range 65 90 c || in_range 97 122 c.
Definition ascii_isalnum (c : N) : bool := ascii_isalpha c || ascii_isdecimal c.
Definition is_ascii (c : N) : bool := N.ltb c 128.

Record UnicodeData := {
  (** [str.isalnum] of a code point above the ASCII range *)
  uni_isalnum : N -> bool;
  (** [str.isdecimal] of a code point above the ASCII range *)
  uni_isdecimal : N -> bool;
  (** [str.lower] of a text that is not pure ASCII *)
  uni_lower : str -> str
}.

Section Text.
Variable ucd : UnicodeData.

Definition isalnum (c : N) : bool :=
  if is_ascii c then ascii_isalnum c else uni_isalnum ucd c.

Definition isdecimal (c : N) : bool :=
  if is_ascii c then ascii_isdecimal c else uni_isdecimal ucd c.

Definition ascii_lower (c : N) : N :=
  if in_range 65 90 c then (c + 32)%N else c.

(** [s.lower()] *)
Definition lower (s : str) : str :=
  if forallb is_ascii s then map ascii_lower s else uni_lower ucd s.

(** ** Regular expressions: the fragment of [re] the module compiles *)

(** Members of a character set [[...]]. *)
Inductive set_item :=
| CATEGORY_WORD          (* \w *)
| CATEGORY_NOT_WORD      (* \W *)
| CATEGORY_DIGIT         (* \d *)
| LITERAL (c : N).

(** A single-character matcher: a (possibly negated) set or a literal. *)
Inductive atom :=
| IN (negate : bool) (items : list set_item)
| CHAR (c : N).

(** A pattern is a sequence of greedy bounded repeats of an atom and
    end anchors; [hi = None] is an unbounded repeat. *)
Inductive node :=
| MAX_REPEAT (lo : nat) (hi : option nat) (a : atom)
| AT_END.

Definition pattern := list node.

(** Under [re.U] a word character is an alphanumeric or the underscore,
    a digit is a decimal digit. *)
Definition is_word (c : N) : bool := isalnum c || N.eqb c chr_underscore.

Definition item_matches (i : set_item) (c : N) : bool :=
  match i with
  | CATEGORY_WORD => is_word c
  | CATEGORY_NOT_WORD => negb (is_word c)
  | CATEGORY_DIGIT => isdecimal c
  | LITERAL l => N.eqb c l
  end.

Definition atom_matches (a : atom) (c : N) : bool :=
  match a with
  | IN negate items => xorb negate (existsb (fun i => item_matches i c) items)
  | CHAR l => N.eqb c l
  end.

Definition may_repeat (hi : option nat) : bool :=
  match hi with Some O => false | _ => true end.

(** Greedy repeat with backtracking: take one more character when the
    bound allows it and the rest matches, otherwise stop here if the
    minimum is reached. [k] is the match of the rest of the pattern. *)
Fixpoint max_repeat (a : atom) (lo : nat) (hi : option nat)
         (s : str) (k : str -> bool) {struct s} : bool :=
  match s with
  | c :: s' =>
      (may_repeat hi && atom_matches a c
         && max_repeat a (pred lo) (option_map pred hi) s' k)
      || (Nat.eqb lo 0 && k s)
  | [] => Nat.eqb lo 0 && k []
  end.

(** [$] without [re.M]: at the end of the text, or just before a
    newline that is its last character. *)
Definition at_end (s : str) : bool :=
  match s with
  | [] => true
  | [c] => N.eqb c chr_newline
  | _ => false
  end.

Fixpoint run (p : pattern) (s : str) : bool :=
  match p with
  | [] => true
  | MAX_REPEAT lo hi a :: p' => max_repeat a lo hi s (run p')
  | AT_END :: p' => at_end s && run p' s
  end.

(** [p.match(s)] is a match object (truthy) or [None]; only its
    truthiness is observed by the module. The match is anchored at the
    start of the text and may stop before its end. *)
Definition re_match (p : pattern) (s : str) : bool := run p s.

(** ** The class attributes *)

(** [[^\W\d\_]] *)
Definition word_letter : atom :=
  IN true [CATEGORY_NOT_WORD; CATEGORY_DIGIT; LITERAL chr_underscore].

(** [re.compile(r"[^\W\d\_]+\.{1,1}[^\W\d\_]+\.{1,1}[^\W\d\_]+$", re.U)] *)
Definition multiple_word_re : pattern :=
  [ MAX_REPEAT 1 None word_letter; MAX_REPEAT 1 (Some 1) (CHAR chr_dot);
    MAX_REPEAT 1 None word_letter; MAX_REPEAT 1 (Some 1) (CHAR chr_dot);
    MAX_REPEAT 1 None word_letter; AT_END ].

Definition geocode_path : str := lit "/v2/forward".
Definition reverse_path : str := lit "/v2/reverse".

(** [What3Words._check_query] *)
Definition _check_query (query : str) : bool :=
  if negb (re_match multiple_word_re query) then false else true.

End Text.

(** ** Python values and exceptions *)

(** What the JSON decoder produces, and what the untyped parameters of the
    client may hold. Objects keep their members in order. *)
Inductive value :=
| VNone
| VBool (b : bool)
| VInt (z : Z)
| VFloat (f : float)
| VStr (s : str)
| VList (items : list value)
| VDict (members : list (str * value)).

Inductive exn :=
| GeocoderQueryError (msg : str)
| GeocoderAuthenticationFailure (msg : str)
| GeocoderParseError (msg : str)
| GeocoderTimedOut (msg : str)
| ConfigurationError (msg : str)
| KeyError (key : str)
| TypeError
| AttributeError
| ValueError
| OverflowError
| UnicodeEncodeError.

(** The result of an expression that may raise. *)
Inductive outcome (A : Type) :=
| Ok (a : A)
| Raise (e : exn).
Arguments Ok {A} a.
Arguments Raise {A} e.

Definition obind {A B} (c : outcome A) (k : A -> outcome B) : outcome B :=
  match c with
  | Ok a => k a
  | Raise e => Raise e
  end.

Declare Scope outcome_scope.
Delimit Scope outcome_scope with outcome.
Notation "x <- c ;; k" := (obind c (fun x => k))
  (at level 61, c at next level, right associativity) : outcome_scope.

(** Truth value of an object in a condition. *)
Definition truthy (v : value) : bool :=
  match v with
  | VNone => false
  | VBool b => b
  | VInt z => negb (Z.eqb z 0)
  | VFloat f => negb (PrimFloat.eqb f 0%float)
  | VStr s => negb (Nat.eqb (List.length s) 0)
  | VList l => negb (Nat.eqb (List.length l) 0)
  | VDict d => negb (Nat.eqb (List.length d) 0)
  end.

Fixpoint dict_lookup (d : list (str * value)) (key : str) : option value :=
  match d with
  | [] => None
  | (k, v) :: d' => if str_eqb k key then Some v else dict_lookup d' key
  end.

(** [obj[key]] for a text key. *)
Definition getitem (obj : value) (key : str) : outcome value :=
  match obj with
  | VDict d =>
      match dict_lookup d key with
      | Some v => Ok v
      | None => Raise (KeyError key)
      end
  | _ => Raise TypeError
  end.

(** [obj.get(key)] *)
Definition get (obj : value) (key : str) : outcome value :=
  match obj with
  | VDict d =>
      match dict_lookup d key with
      | Some v => Ok v
      | None => Ok VNone
      end
  | _ => Raise AttributeError
  end.

Fixpoint is_prefix (p s : str) : bool :=
  match p, s with
  | [], _ => true
  | x :: p', y :: s' => N.eqb x y && is_prefix p' s'
  | _ :: _, [] => false
  end.

Fixpoint is_substring (p s : str) : bool :=
  is_prefix p s || match s with [] => false | _ :: s' => is_substring p s' end.

(** [key in obj] for a text key. *)
Definition contains (key : str) (obj : value) : outcome bool :=
  match obj with
  | VDict d => Ok (match dict_lookup d key with Some _ => true | None => false end)
  | VList l =>
      Ok (existsb (fun v => match v with VStr s => str_eqb s key | _ => false end) l)
  | VStr s => Ok (is_substring key s)
  | _ => Raise TypeError
  end.

(** [float(z)] of an integer: correctly rounded, [OverflowError] when it
    rounds out of range. *)
Definition float_of_int (z : Z) : outcome float :=
  match binary_normalize 53 1024 z 0 false with
  | S754_infinity _ => Raise OverflowError
  | sf => Ok (SF2Prim sf)
  end.

(** [v == n] for an integer literal [n] that a float holds exactly
    (below 2^53 in magnitude, as the literals of the module are). *)
Definition eq_int (v : value) (n : Z) : bool :=
  match v with
  | VInt z => Z.eqb z n
  | VBool b => Z.eqb (if b then 1 else 0) n
  | VFloat f =>
      match float_of_int n with
      | Ok g => PrimFloat.eqb f g
      | Raise _ => false
      end
  | _ => false
  end.

(** ** Built-in conversions *)

(** What the interpreter computes and this development does not spell
    out: the text of floats and containers, and the parsing of a float
    from text. *)
Record Builtins := {
  (** [str(v)] of a float, list or dict *)
  repr_of : value -> str;
  (** [float(s)] of a text, [ValueError] when it is not a number *)
  float_of_str : str -> outcome float
}.

Section Conversions.
Variable bi : Builtins.

(** [str(v)], also what [%s] formats. *)
Definition py_str (v : value) : str :=
  match v with
  | VStr s => s
  | VNone => lit "None"
  | VBool b => if b then lit "True" else lit "False"
  | VInt z => lit (DecimalString.NilZero.string_of_int (Z.to_int z))
  | _ => repr_of bi v
  end.

(** [float(v)] *)
Definition py_float (v : value) : outcome value :=
  match v with
  | VFloat f => Ok (VFloat f)
  | VInt z => obind (float_of_int z) (fun f => Ok (VFloat f))
  | VBool b => Ok (VFloat (if b then 1%float else 0%float))
  | VStr s => obind (float_of_str bi s) (fun f => Ok (VFloat f))
  | _ => Raise TypeError
  end.

(** ** urllib.parse: [quote], [quote_plus], [urlencode] *)

(** [s.encode('utf-8')] of one code point; surrogates cannot be encoded. *)
Definition utf8_encode_char (c : N) : outcome (list N) :=
  if N.ltb c 128 then Ok [c]
  else if N.ltb c 2048 then Ok [192 + c / 64; 128 + c mod 64]%N
  else if N.ltb c 65536 then
    if in_range 55296 57343 c then Raise UnicodeEncodeError
    else Ok [224 + c / 4096; 128 + (c / 64) mod 64; 128 + c mod 64]%N
  else if N.ltb c 1114112 then
    Ok [240 + c / 262144; 128 + (c / 4096) mod 64;
        128 + (c / 64) mod 64; 128 + c mod 64]%N
  else Raise UnicodeEncodeError.

Fixpoint utf8_encode (s : str) : outcome (list N) :=
  match s with
  | [] => Ok []
  | c :: s' =>
      (bs <- utf8_encode_char c ;;
       rest <- utf8_encode s' ;;
       Ok (bs ++ rest))%outcome
  end.

(** The bytes [quote] never escapes: letters, digits and [_.-~]. *)
Definition always_safe (b : N) : bool :=
  ascii_isalnum b || existsb (N.eqb b) (lit "_.-~").

Definition hex_digit (n : N) : N :=
  if N.ltb n 10 then (48 + n)%N else (55 + n)%N.

Definition quote_byte (safe : str) (b : N) : str :=
  if always_safe b || existsb (N.eqb b) safe then [b]
  else [37; hex_digit (b / 16); hex_digit (b mod 16)]%N.

(** [quote(s, safe)] *)
Definition quote (s : str) (safe : str) : outcome str :=
  (bs <- utf8_encode s ;; Ok (flat_map (quote_byte safe) bs))%outcome.

(** [quote_plus(s)]: spaces become [+]. *)
Definition quote_plus (s : str) : outcome str :=
  if existsb (N.eqb chr_space) s then
    (q <- quote s [chr_space] ;;
     Ok (map (fun c => if N.eqb c chr_space then 43%N else c) q))%outcome
  else quote s [].

(** [urlencode(params)] of a dict with text keys, in insertion order. *)
Fixpoint urlencode_pairs (params : list (str * value)) : outcome (list str) :=
  match params with
  | [] => Ok []
  | (k, v) :: rest =>
      (k' <- quote_plus k ;;
       v' <- quote_plus (py_str v) ;;
       l <- urlencode_pairs rest ;;
       Ok ((k' ++ lit "=" ++ v') :: l))%outcome
  end.

Definition urlencode (params : list (str * value)) : outcome str :=
  (l <- urlencode_pairs params ;; Ok (join (lit "&") l))%outcome.

(** ** Location *)

(** Modelled from the spec: the [Location] record of [geopy.location]
    (not part of this module), a result record with the fields [label],
    [point] (the latitude and longitude it is built from) and [raw] (the
    parsed response fragment). Its constructor stores its arguments. *)
Record Location := {
  label : value;
  point : value * value;
  raw : value
}.

(** One result, or a list of results. *)
Inductive result :=
| One (location : Location)
| Many (locations : list Location).

(** ** Response parsing *)

(** The nested [parse_resource] of [_parse_json]. *)
Definition parse_resource (resource : value) : outcome Location :=
  (has_geometry <- contains (lit "geometry") resource ;;
   if has_geometry then
     words <- getitem resource (lit "words") ;;
     position <- getitem resource (lit "geometry") ;;
     latitude <- getitem position (lit "lat") ;;
     longitude <- getitem position (lit "lng") ;;
     coords <- (if truthy latitude && truthy longitude then
                  latitude' <- py_float latitude ;;
                  longitude' <- py_float longitude ;;
                  Ok (latitude', longitude')
                else Ok (latitude, longitude)) ;;
     Ok {| label := words; point := coords; raw := resource |}
   else Raise (GeocoderParseError (lit "Error parsing result.")))%outcome.

(** [What3Words._parse_json] *)
Definition _parse_json (resources : value) (exactly_one : bool) : outcome result :=
  (status <- getitem resources (lit "status") ;;
   code <- get status (lit "code") ;;
   if truthy code then
     status' <- getitem resources (lit "status") ;;
     message <- getitem status' (lit "message") ;;
     let exc_msg := lit "Error returned by What3Words: " ++ py_str message in
     if eq_int code 401 then Raise (GeocoderAuthenticationFailure exc_msg)
     else Raise (GeocoderQueryError exc_msg)
   else
     location <- parse_resource resources ;;
     if exactly_one then Ok (One location) else Ok (Many [location]))%outcome.

(** [What3Words._parse_reverse_json] *)
Definition _parse_reverse_json (resources : value) (exactly_one : bool)
  : outcome result :=
  _parse_json resources exactly_one.

End Conversions.

(** ** The world outside: transport trace and debug log *)

(** A transport setting: an explicit value or the process-wide default. *)
Inductive setting :=
| DEFAULT_SENTINEL
| Given (v : value).

Record World := {
  (** messages passed to [logger.debug], oldest first *)
  debug_log : list str;
  (** requests handed to the HTTP-call collaborator, oldest first *)
  requests : list (str * setting)
}.

(** A computation that reads and extends the world and may raise. *)
Definition M (A : Type) : Type := World -> outcome A * World.

Definition throw {A} (e : exn) : M A := fun w => (Raise e, w).
Definition lift {A} (c : outcome A) : M A := fun w => (c, w).

Definition bind {A B} (c : M A) (k : A -> M B) : M B :=
  fun w =>
    match c w with
    | (Ok a, w') => k a w'
    | (Raise e, w') => (Raise e, w')
    end.

Declare Scope world_scope.
Delimit Scope world_scope with world.
Notation "x <- c ;; k" := (bind c (fun x => k))
  (at level 61, c at next level, right associativity) : world_scope.
Notation "c ;;; k" := (bind c (fun _ => k))
  (at level 61, right associativity) : world_scope.

(** [logger.debug(...)] with the formatted message. *)
Definition logger_debug (msg : str) : M unit :=
  fun w => (Ok tt, {| debug_log := debug_log w ++ [msg]; requests := requests w |}).

(** ** The base geocoder *)

(** The transport overrides of the constructor. *)
Record Settings := {
  timeout : setting;
  proxies : setting;
  user_agent : value;
  ssl_context : setting
}.

(** The state the base class keeps. *)
Record Geocoder := {
  scheme : str;
  settings : Settings
}.

(** The collaborators of the module, which live in [geopy.geocoders.base]
    and below it. *)
Record Collaborators := {
  (** why the transport settings are malformed, if they are *)
  settings_error : Settings -> option str;
  (** the HTTP exchange: the parsed JSON body, or a transport condition *)
  transport : str -> setting -> outcome value;
  (** the normalisation of a point to the text [lat,lng] *)
  point_to_string : value -> outcome str
}.

Section Client.
Variable ucd : UnicodeData.
Variable bi : Builtins.
Variable env : Collaborators.

(** Modelled from the spec: [Geocoder.__init__] of the base class (not
    part of this module). It fails with a configuration error when the
    transport settings are malformed and otherwise keeps the scheme and
    the settings. *)
Definition Geocoder_init (scheme : str) (s : Settings) : outcome Geocoder :=
  match settings_error env s with
  | Some msg => Raise (ConfigurationError msg)
  | None => Ok {| scheme := scheme; settings := s |}
  end.

(** Modelled from the spec: [Geocoder._call_geocoder] of the base class, a
    transport function taking a URL and a timeout and returning parsed
    JSON or raising a transport-level condition. The request is recorded
    in the world. *)
Definition _call_geocoder (url : str) (timeout : setting) : M value :=
  fun w =>
    (transport env url timeout,
     {| debug_log := debug_log w; requests := requests w ++ [(url, timeout)] |}).

(** Modelled from the spec: [Geocoder._coerce_point_to_string] of the base
    class, the coordinate-normalisation collaborator. *)
Definition _coerce_point_to_string (query : value) : outcome str :=
  point_to_string env query.

(** ** The client *)

Record What3Words := {
  base : Geocoder;
  api_key : value;
  geocode_api : str;
  reverse_api : str
}.

(** [What3Words.__init__]; ['%s://%s%s' % (a, b, c)] of three texts is
    their concatenation around the separator. *)
Definition __init__ (api_key : value) (timeout proxies : setting)
           (user_agent : value) (ssl_context : setting) : outcome What3Words :=
  (self <- Geocoder_init (lit "https")
             {| timeout := timeout; proxies := proxies;
                user_agent := user_agent; ssl_context := ssl_context |} ;;
   let domain := lit "api.what3words.com" in
   Ok {| base := self;
         api_key := api_key;
         geocode_api := scheme self ++ lit "://" ++ domain ++ geocode_path;
         reverse_api := scheme self ++ lit "://" ++ domain ++ reverse_path |})%outcome.

(** [What3Words.geocode] *)
Definition geocode (self : What3Words) (query : str) (lang : str)
           (exactly_one : bool) (timeout : setting) : M result :=
  if negb (_check_query ucd query) then
    throw (GeocoderQueryError (lit "Search string must be 'word.word.word'"))
  else
    let params := [ (lit "addr", VStr query);
                    (lit "lang", VStr (lower ucd lang));
                    (lit "key", api_key self) ] in
    (encoded <- lift (urlencode bi params) ;;
     let url := join (lit "?") [geocode_api self; encoded] in
     logger_debug (lit "What3Words.geocode: " ++ url) ;;;
     resources <- _call_geocoder url timeout ;;
     lift (_parse_json bi resources exactly_one))%world.

(** [What3Words.reverse] *)
Definition reverse (self : What3Words) (query : value) (lang : str)
           (exactly_one : bool) (timeout : setting) : M result :=
  let lang := lower ucd lang in
  (coords <- lift (_coerce_point_to_string query) ;;
   let params := [ (lit "coords", VStr coords);
                   (lit "lang", VStr (lower ucd lang));
                   (lit "key", api_key self) ] in
   encoded <- lift (urlencode bi params) ;;
   let url := join (lit "?") [reverse_api self; encoded] in
   logger_debug (lit "What3Words.reverse: " ++ url) ;;;
   resources <- _call_geocoder url timeout ;;
   lift (_parse_reverse_json bi resources exactly_one))%world.

End Client.

(** ** Vocabulary of the properties *)

Section Shape.
Variable ucd : UnicodeData.

(** A character of the set of the pattern, called a letter in what
    follows: an alphanumeric that is neither a decimal digit nor the
    underscore. Besides the letters proper the set holds the numeric
    characters that are not decimal digits (superscripts, fractions,
    Roman numerals). *)
Definition is_letter (c : N) : bool :=
  isalnum ucd c && negb (isdecimal ucd c) && negb (N.eqb c chr_underscore).

(** One word of a three-word address: one or more letters. *)
Definition word_group (w : str) : Prop :=
  w <> [] /\ forallb is_letter w = true.

(** The shape [word.word.word]. *)
Definition three_words (w1 w2 w3 : str) : str :=
  w1 ++ lit "." ++ w2 ++ lit "." ++ w3.

(** The number of maximal runs of letters in a text; [inside] tells
    whether the previous character was a letter. *)
Fixpoint letter_groups_from (inside : bool) (s : str) : nat :=
  match s with
  | [] => 0
  | c :: s' =>
      if is_letter c
      then (if inside then 0 else 1) + letter_groups_from true s'
      else letter_groups_from false s'
  end.

Definition letter_groups (s : str) : nat := letter_groups_from false s.

Definition is_digit_or_underscore (c : N) : bool :=
  isdecimal ucd c || N.eqb c chr_underscore.

(** Where a run of letters may stop: at the end, or before a
    character that is not a letter. *)
Definition boundary (rest : str) : Prop :=
  match rest with
  | [] => True
  | c :: _ => is_letter c = false
  end.

End Shape.

(** The bound of a repeat, as a proposition on the number of iterations. *)
Definition within (hi : option nat) (n : nat) : Prop :=
  match hi with
  | None => True
  | Some h => n <= h
  end.

(** A text every code point of which UTF-8 can encode. *)
Definition encodable (s : str) : Prop :=
  exists bs, utf8_encode s = Ok bs.

(** The percent-encoding of an encodable text, [[]] otherwise. *)
Definition quoted (s : str) : str :=
  match quote_plus s with
  | Ok q => q
  | Raise _ => []
  end.

(** ** Stub collaborators for concrete runs *)

(** Character data that knows no alphanumeric above the ASCII range. *)
Definition ascii_only : UnicodeData :=
  {| uni_isalnum := fun _ => false;
     uni_isdecimal := fun _ => false;
     uni_lower := fun s => s |}.

Definition plain_builtins : Builtins :=
  {| repr_of := fun _ => lit "<object>";
     float_of_str := fun _ => Raise ValueError |}.

(** A transport that answers every request with the same body, behind
    settings that are always well formed and a point normaliser that
    accepts texts only. *)
Definition stub (body : value) : Collaborators :=
  {| settings_error := fun _ => None;
     transport := fun _ _ => Ok body;
     point_to_string :=
       fun q => match q with VStr s => Ok s | _ => Raise ValueError end |}.

Definition fresh_world : World := {| debug_log := []; requests := [] |}.

Definition default_settings : Settings :=
  {| timeout := DEFAULT_SENTINEL; proxies := DEFAULT_SENTINEL;
     user_agent := VNone; ssl_context := DEFAULT_SENTINEL |}.

(** A client as the constructor builds it for a key. *)
Definition client (key : value) : What3Words :=
  {| base := {| scheme := lit "https"; settings := default_settings |};
     api_key := key;
     geocode_api := lit "https://api.what3words.com/v2/forward";
     reverse_api := lit "https://api.what3words.com/v2/reverse" |}.

(** The body the service sends for the address of the documentation. *)
Definition sample_body : value :=
  VDict [ (lit "status", VDict [(lit "reason", VStr (lit "OK"))]);
          (lit "words", VStr (lit "index.home.raft"));
          (lit "geometry", VDict [ (lit "lat", VFloat 51.5%float);
                                   (lit "lng", VFloat (-0.25)%float) ]) ].

(** A response whose status reports no error: the status member is an
    object whose code is absent or falsy. *)
Definition status_ok (resources : value) : Prop :=
  exists status code,
    getitem resources (lit "status") = Ok status /\
    get status (lit "code") = Ok code /\
    truthy code = false.

(** A body on the equator, its longitude decoded as a float and its
    latitude as the integer zero. *)
Definition equator_body : value :=
  VDict [ (lit "status", VDict [(lit "reason", VStr (lit "OK"))]);
          (lit "words", VStr (lit "index.home.raft"));
          (lit "geometry", VDict [ (lit "lat", VInt 0);
                                   (lit "lng", VFloat 9.5%float) ]) ].

(** The locations a result holds. *)
Definition locations_of (r : result) : list Location :=
  match r with
  | One location => [location]
  | Many locations => locations
  end.

(** A body with a status and a three-word address but no geometry. *)
Definition no_geometry_body : value :=
  VDict [ (lit "status", VDict [(lit "reason", VStr (lit "OK"))]);
          (lit "words", VStr (lit "index.home.raft")) ].

(** The world after a request for [url] was logged under [tag] and sent. *)
Definition after_request (tag url : str) (timeout : setting) (w : World) : World :=
  {| debug_log := debug_log w ++ [tag ++ url];
     requests := requests w ++ [(url, timeout)] |}.

(** The characters [quote_plus] can produce: the never-escaped ones, the
    percent sign of an escape and the plus sign of a space. *)
Definition query_safe (c : N) : bool :=
  always_safe c || N.eqb c 37 || N.eqb c 43.

Definition chr_ampersand : N := 38.
Definition chr_equals : N := 61.

(** The body of the documentation without its status member. *)
Definition statusless_body : value :=
  VDict [ (lit "words", VStr (lit "index.home.raft"));
          (lit "geometry", VDict [ (lit "lat", VFloat 51.5%float);
                                   (lit "lng", VFloat (-0.25)%float) ]) ].

(** An error status that carries a code and no message. *)
Definition no_message_body : value :=
  VDict [(lit "status", VDict [(lit "code", VInt 401)])].

(** A body on the prime meridian, both coordinates decoded as floats. *)
Definition meridian_body : value :=
  VDict [ (lit "status", VDict [(lit "reason", VStr (lit "OK"))]);
          (lit "words", VStr (lit "index.home.raft"));
          (lit "geometry", VDict [ (lit "lat", VFloat 51.5%float);
                                   (lit "lng", VFloat 0%float) ]) ].


(** A transport that fails every request with the same condition. *)
Definition failing (e : exn) : Collaborators :=
  {| settings_error := fun _ => None;
     transport := fun _ _ => Raise e;
     point_to_string :=
       fun q => match q with VStr s => Ok s | _ => Raise ValueError end |}.

(** ** The Unicode database on the Latin-1 range

    What the interpreter's database says of the code points up to U+00FF:
    the letters, the digits (superscripts included), the numeric
    characters (vulgar fractions included) and the decimal digits. This
    fragment classifies nothing above U+00FF and lowers nothing there. *)

Definition latin1_isalpha (c : N) : bool :=
  ascii_isalpha c || N.eqb c 170 || N.eqb c 181 || N.eqb c 186
  || in_range 192 214 c || in_range 216 246 c || in_range 248 255 c.

Definition latin1_isdecimal (c : N) : bool := ascii_isdecimal c.

Definition latin1_isdigit (c : N) : bool :=
  ascii_isdecimal c || N.eqb c 178 || N.eqb c 179 || N.eqb c 185.

Definition latin1_isnumeric (c : N) : bool :=
  latin1_isdigit c || in_range 188 190 c.

(** [str.isalnum] of one character: alphabetic, decimal, digit or numeric. *)
Definition latin1_isalnum (c : N) : bool :=
  latin1_isalpha c || latin1_isdecimal c || latin1_isdigit c
  || latin1_isnumeric c.

Definition latin1_lower_char (c : N) : N :=
  if in_range 65 90 c || in_range 192 214 c || in_range 216 222 c
  then (c + 32)%N else c.

Definition latin1 : UnicodeData :=
  {| uni_isalnum := latin1_isalnum;
     uni_isdecimal := latin1_isdecimal;
     uni_lower := map latin1_lower_char |}.

(** The number of maximal runs of characters satisfying [p] in a text. *)
Fixpoint runs_from (p : N -> bool) (inside : bool) (s : str) : nat :=
  match s with
  | [] => 0
  | c :: s' =>
      if p c then (if inside then 0 else 1) + runs_from p true s'
      else runs_from p false s'
  end.

Definition runs (p : N -> bool) (s : str) : nat := runs_from p false s.

(** The text of three vulgar fractions one half, U+00BD, between dots. *)
Definition three_halves : str := [189; 46; 189; 46; 189]%N.

(** The text x².home.raft, with the superscript two U+00B2. *)
Definition x_squared_home_raft : str := lit "x" ++ [178%N] ++ lit ".home.raft".

(** The empty object and an object whose status is [null]. *)
Definition empty_body : value := VDict [].
Definition null_status_body : value := VDict [(lit "status", VNone)].

(** * Properties *)

(** ** Text equality *)

Lemma str_eqb_spec (a b : str) : str_eqb a b = true <-> a = b.
Proof.
  revert b; induction a as [|x a IH]; intros [|y b]; simpl; split;
    try congruence; try reflexivity.
  - intros H. apply andb_true_iff in H as [Hx Hab].
    apply N.eqb_eq in Hx. apply IH in Hab. congruence.
  - intros H. injection H as -> ->. rewrite N.eqb_refl. simpl. now apply IH.
Qed.

Lemma str_eqb_refl (a : str) : str_eqb a a = true.
Proof. now apply str_eqb_spec. Qed.

(** ** The matcher *)

Section MatcherFacts.
Variable ucd : UnicodeData.

Lemma max_repeat_spec (a : atom) (s : str) (k : str -> bool) :
  forall lo hi,
    max_repeat ucd a lo hi s k = true <->
    exists w rest,
      s = w ++ rest /\ forallb (atom_matches ucd a) w = true /\
      lo <= List.length w /\ within hi (List.length w) /\ k rest = true.
Proof.
  induction s as [|c s IH]; intros lo hi; simpl.
  - rewrite andb_true_iff, Nat.eqb_eq. split.
    + intros [-> Hk]. exists [], []. simpl. repeat split; auto.
      destruct hi; simpl; lia.
    + intros (w & rest & Hs & _ & Hlo & _ & Hk).
      symmetry in Hs. apply app_eq_nil in Hs as [-> ->].
      simpl in Hlo. split; [lia | exact Hk].
  - rewrite orb_true_iff, !andb_true_iff, Nat.eqb_eq, IH. split.
    + intros [[[Hm Ha] (w & rest & -> & Hw & Hlo & Hhi & Hk)] | [-> Hk]].
      * exists (c :: w), rest. simpl. rewrite Ha, Hw. repeat split; auto.
        -- lia.
        -- destruct hi as [[|h]|]; simpl in *; try discriminate; auto; lia.
      * exists [], (c :: s). simpl. repeat split; auto.
        destruct hi; simpl; lia.
    + intros (w & rest & Hs & Hw & Hlo & Hhi & Hk).
      destruct w as [|c' w]; simpl in *.
      * right. subst rest. split; [lia | exact Hk].
      * left. injection Hs as <- ->.
        apply andb_true_iff in Hw as [Ha Hw]. repeat split; auto.
        -- destruct hi as [[|h]|]; simpl in *; auto; lia.
        -- exists w, rest. repeat split; auto.
           ++ lia.
           ++ destruct hi as [[|h]|]; simpl in *; auto; lia.
Qed.

(** The character set of the pattern is the letters. *)
Lemma word_letter_matches (c : N) :
  atom_matches ucd word_letter c = is_letter ucd c.
Proof.
  unfold atom_matches, word_letter, is_letter, item_matches, is_word; simpl.
  destruct (isalnum ucd c), (isdecimal ucd c), (N.eqb c chr_underscore);
    reflexivity.
Qed.

Lemma forallb_word_letter (w : str) :
  forallb (atom_matches ucd word_letter) w = forallb (is_letter ucd) w.
Proof.
  induction w as [|c w IH]; cbn [forallb]; [reflexivity|].
  now rewrite word_letter_matches, IH.
Qed.

(** [\.{1,1}] consumes exactly one dot. *)
Lemma one_dot_spec (s : str) (k : str -> bool) :
  max_repeat ucd (CHAR chr_dot) 1 (Some 1) s k = true <->
  exists rest, s = chr_dot :: rest /\ k rest = true.
Proof.
  rewrite max_repeat_spec. split.
  - intros (w & rest & -> & Hw & Hlo & Hhi & Hk). simpl in Hhi.
    destruct w as [|c [|c' w]]; simpl in *; try lia.
    rewrite andb_true_r in Hw. apply N.eqb_eq in Hw as ->.
    now exists rest.
  - intros (rest & -> & Hk). exists [chr_dot], rest. simpl.
    repeat split; auto.
Qed.

(** [[^\W\d\_]+] consumes a non-empty run of letters. *)
Lemma letters_spec (s : str) (k : str -> bool) :
  max_repeat ucd word_letter 1 None s k = true <->
  exists w rest, s = w ++ rest /\ word_group ucd w /\ k rest = true.
Proof.
  rewrite max_repeat_spec. unfold word_group. split.
  - intros (w & rest & -> & Hw & Hlo & _ & Hk).
    rewrite forallb_word_letter in Hw. exists w, rest.
    repeat split; auto. intros ->. simpl in Hlo. lia.
  - intros (w & rest & -> & [Hne Hw] & Hk). exists w, rest.
    rewrite forallb_word_letter. repeat split; simpl; auto.
    destruct w; [congruence | simpl; lia].
Qed.

(** What the pattern of the class accepts. *)
Lemma check_query_iff (s : str) :
  _check_query ucd s = true <->
  exists w1 w2 w3 tail,
    s = w1 ++ chr_dot :: w2 ++ chr_dot :: w3 ++ tail /\
    word_group ucd w1 /\ word_group ucd w2 /\ word_group ucd w3 /\
    at_end tail = true.
Proof.
  unfold _check_query, re_match, multiple_word_re.
  destruct (run _ _ s) eqn:E; simpl.
  - split; [intros _ | reflexivity].
    simpl in E. apply letters_spec in E as (w1 & r1 & -> & H1 & E).
    apply one_dot_spec in E as (r2 & -> & E).
    apply letters_spec in E as (w2 & r3 & -> & H2 & E).
    apply one_dot_spec in E as (r4 & -> & E).
    apply letters_spec in E as (w3 & tail & -> & H3 & E).
    rewrite andb_true_r in E. now exists w1, w2, w3, tail.
  - split; [discriminate|].
    intros (w1 & w2 & w3 & tail & -> & H1 & H2 & H3 & Ht).
    rewrite <- E. simpl.
    apply letters_spec. exists w1, (chr_dot :: w2 ++ chr_dot :: w3 ++ tail).
    repeat split; try apply H1.
    apply one_dot_spec. eexists; split; [reflexivity|].
    apply letters_spec. exists w2, (chr_dot :: w3 ++ tail).
    repeat split; try apply H2.
    apply one_dot_spec. eexists; split; [reflexivity|].
    apply letters_spec. exists w3, tail.
    repeat split; try apply H3. now rewrite Ht.
Qed.

End MatcherFacts.

(** ** Query validation *)

Section Validation.
Variable ucd : UnicodeData.

Lemma dot_not_letter : is_letter ucd chr_dot = false.
Proof. reflexivity. Qed.

Lemma newline_not_letter : is_letter ucd chr_newline = false.
Proof. reflexivity. Qed.

Lemma letter_not_digit_or_underscore (c : N) :
  is_letter ucd c = true -> is_digit_or_underscore ucd c = false.
Proof.
  unfold is_letter, is_digit_or_underscore.
  destruct (isalnum ucd c), (isdecimal ucd c), (N.eqb c chr_underscore);
    simpl; congruence.
Qed.

(** No ASCII white space is a letter. *)
Lemma space_not_letter (c : N) :
  In c [9; 10; 11; 12; 13; 32]%N -> is_letter ucd c = false.
Proof.
  simpl. intros H. repeat (destruct H as [<- | H]; [reflexivity|]).
  contradiction.
Qed.

Lemma at_end_cases (tail : str) :
  at_end tail = true -> tail = [] \/ tail = [chr_newline].
Proof.
  destruct tail as [|c [|c' tail]]; simpl; intros H;
    [now left | right | discriminate].
  apply N.eqb_eq in H. now subst.
Qed.

Lemma groups_inside (w rest : str) :
  forallb (is_letter ucd) w = true -> boundary ucd rest ->
  letter_groups_from ucd true (w ++ rest) = letter_groups_from ucd false rest.
Proof.
  intros Hw Hb. induction w as [|c w IH]; simpl in *.
  - destruct rest as [|c rest]; simpl in *; [reflexivity | now rewrite Hb].
  - apply andb_true_iff in Hw as [Hc Hw]. rewrite Hc. simpl. now apply IH.
Qed.

Lemma groups_word (w rest : str) :
  word_group ucd w -> boundary ucd rest ->
  letter_groups_from ucd false (w ++ rest)
  = S (letter_groups_from ucd false rest).
Proof.
  intros [Hne Hw] Hb. destruct w as [|c w]; [congruence|]. simpl in *.
  apply andb_true_iff in Hw as [Hc Hw]. rewrite Hc. simpl.
  now rewrite groups_inside.
Qed.

Lemma groups_dot (rest : str) :
  letter_groups_from ucd false (chr_dot :: rest)
  = letter_groups_from ucd false rest.
Proof. reflexivity. Qed.

Lemma accepted_groups (s : str) :
  _check_query ucd s = true -> letter_groups ucd s = 3.
Proof.
  intros H. apply check_query_iff in H
    as (w1 & w2 & w3 & tail & -> & H1 & H2 & H3 & Ht).
  unfold letter_groups.
  rewrite groups_word, groups_dot by (auto; exact dot_not_letter).
  rewrite groups_word, groups_dot by (auto; exact dot_not_letter).
  apply at_end_cases in Ht as [-> | ->].
  - rewrite groups_word by (auto; exact I). reflexivity.
  - rewrite groups_word by (auto; exact newline_not_letter). reflexivity.
Qed.

Lemma count_dot_app_ge (w rest : str) (n : nat) :
  n <= count_occ N.eq_dec rest chr_dot ->
  S n <= count_occ N.eq_dec (w ++ chr_dot :: rest) chr_dot.
Proof.
  intros H. rewrite count_occ_app, count_occ_cons_eq by reflexivity. lia.
Qed.

Lemma accepted_dots (s : str) :
  _check_query ucd s = true -> 2 <= count_occ N.eq_dec s chr_dot.
Proof.
  intros H. apply check_query_iff in H
    as (w1 & w2 & w3 & tail & -> & _).
  do 2 apply count_dot_app_ge. lia.
Qed.

Lemma word_group_clean (w : str) :
  forallb (is_letter ucd) w = true ->
  existsb (is_digit_or_underscore ucd) w = false.
Proof.
  induction w as [|c w IH]; simpl; [reflexivity|].
  intros H. apply andb_true_iff in H as [Hc Hw].
  now rewrite (letter_not_digit_or_underscore _ Hc), IH.
Qed.

Lemma accepted_clean (s : str) :
  _check_query ucd s = true ->
  existsb (is_digit_or_underscore ucd) s = false.
Proof.
  intros H. apply check_query_iff in H
    as (w1 & w2 & w3 & tail & -> & [_ H1] & [_ H2] & [_ H3] & Ht).
  repeat (rewrite existsb_app || cbn [existsb]).
  rewrite !word_group_clean by assumption.
  apply at_end_cases in Ht as [-> | ->]; reflexivity.
Qed.

(** C1, as the code has it. Every text of the shape word.word.word,
    three non-empty groups of characters of the set [[^\W\d\_]]
    (alphanumerics that are neither decimal digits nor the underscore)
    separated by single dots and ending the text, passes [_check_query];
    every text with fewer than two dots, or containing a decimal digit or
    an underscore, or whose number of maximal runs of characters of the
    set is not three, is rejected. *)
Theorem check_query_three_words :
  (forall w1 w2 w3,
      word_group ucd w1 -> word_group ucd w2 -> word_group ucd w3 ->
      _check_query ucd (three_words w1 w2 w3) = true) /\
  (forall s,
      count_occ N.eq_dec s chr_dot < 2 \/
      existsb (is_digit_or_underscore ucd) s = true \/
      letter_groups ucd s <> 3 ->
      _check_query ucd s = false).
Proof.
  split.
  - intros w1 w2 w3 H1 H2 H3. apply check_query_iff.
    exists w1, w2, w3, []. split; [now rewrite app_nil_r | auto].
  - intros s H. destruct (_check_query ucd s) eqn:E; [exfalso | reflexivity].
    destruct H as [H | [H | H]].
    + apply accepted_dots in E. lia.
    + apply accepted_clean in E. congruence.
    + apply accepted_groups in E. congruence.
Qed.

End Validation.

Lemma check_query_three_words_witness :
  _check_query ascii_only (three_words (lit "index") (lit "home") (lit "raft"))
  = true /\
  _check_query ascii_only (lit "index.home") = false /\
  _check_query ascii_only (lit "ind3x.ho_me.raft") = false /\
  _check_query ascii_only (lit "index.home.raft.more") = false.
Proof.
  pose proof (check_query_three_words ascii_only) as [Hyes Hno].
  split; [|split; [|split]].
  - apply Hyes; split; (discriminate || reflexivity).
  - apply Hno. left. apply Nat.ltb_lt. reflexivity.
  - apply Hno. right; left. reflexivity.
  - apply Hno. right; right. apply Nat.eqb_neq. reflexivity.
Defined.

(** The set of the pattern is wider than the letters: under the Unicode
    database a text of three fractions, which holds no letter at all, and
    a text with a superscript digit both pass [_check_query]. *)
Lemma check_query_accepts_non_letters :
  _check_query latin1 three_halves = true /\
  existsb latin1_isalpha three_halves = false /\
  runs latin1_isalpha three_halves = 0 /\
  _check_query latin1 x_squared_home_raft = true /\
  existsb latin1_isdigit x_squared_home_raft = true /\
  runs latin1_isalpha x_squared_home_raft = 3.
Proof.
  repeat (split; [vm_compute; reflexivity|]). vm_compute. reflexivity.
Qed.

(** ** Forward geocoding: rejection of malformed queries *)

Section Rejection.
Variable ucd : UnicodeData.
Variable bi : Builtins.
Variable env : Collaborators.

(** C2. A query that fails the shape validation makes [geocode] raise
    the query error with the message of the source, and leaves the world
    as it was: nothing is logged and no request reaches the transport. *)
Theorem geocode_rejects_malformed_query
        (self : What3Words) (query lang : str) (exactly_one : bool)
        (timeout : setting) (w : World) :
  _check_query ucd query = false ->
  geocode ucd bi env self query lang exactly_one timeout w
  = (Raise (GeocoderQueryError (lit "Search string must be 'word.word.word'")), w)
  /\ requests (snd (geocode ucd bi env self query lang exactly_one timeout w))
     = requests w.
Proof.
  intros H. unfold geocode. rewrite H. simpl. split; reflexivity.
Qed.

End Rejection.

Lemma geocode_rejects_malformed_query_witness :
  geocode ascii_only plain_builtins (stub sample_body) (client (VStr (lit "key")))
          (lit "not a valid query") (lit "en") true DEFAULT_SENTINEL fresh_world
  = (Raise (GeocoderQueryError (lit "Search string must be 'word.word.word'")),
     fresh_world)
  /\ requests (snd (geocode ascii_only plain_builtins (stub sample_body)
                            (client (VStr (lit "key"))) (lit "not a valid query")
                            (lit "en") true DEFAULT_SENTINEL fresh_world))
     = requests fresh_world.
Proof.
  apply (geocode_rejects_malformed_query ascii_only plain_builtins
           (stub sample_body)).
  reflexivity.
Defined.

(** ** Response parsing *)

Section Parsing.
Variable bi : Builtins.

Lemma getitem_dict (obj : value) (key : str) (v : value) :
  getitem obj key = Ok v ->
  exists d, obj = VDict d /\ dict_lookup d key = Some v.
Proof.
  destruct obj; simpl; try discriminate.
  destruct (dict_lookup members key) eqn:E; [|discriminate].
  intros [= ->]. now exists members.
Qed.

Lemma getitem_contains (obj : value) (key : str) (v : value) :
  getitem obj key = Ok v -> contains key obj = Ok true.
Proof.
  intros H. apply getitem_dict in H as (d & -> & H). simpl. now rewrite H.
Qed.

(** C3. When the status of a response carries a truthy code and a
    message, parsing raises and returns no location: the authentication
    failure when the code equals 401, the query error otherwise. The text
    of the exception ends with the message of the service. *)
Theorem parse_json_error_status
        (resources status code message : value) (exactly_one : bool) :
  getitem resources (lit "status") = Ok status ->
  get status (lit "code") = Ok code ->
  truthy code = true ->
  getitem status (lit "message") = Ok message ->
  let text := lit "Error returned by What3Words: " ++ py_str bi message in
  (eq_int code 401 = true ->
   _parse_json bi resources exactly_one
   = Raise (GeocoderAuthenticationFailure text)) /\
  (eq_int code 401 = false ->
   _parse_json bi resources exactly_one = Raise (GeocoderQueryError text)) /\
  (forall m, message = VStr m ->
             text = lit "Error returned by What3Words: " ++ m) /\
  (forall r, _parse_json bi resources exactly_one <> Ok r).
Proof.
  intros Hs Hc Ht Hm text. unfold _parse_json.
  rewrite Hs. simpl. rewrite Hc. simpl. rewrite Ht, Hm. simpl.
  fold text. repeat split.
  - now intros ->.
  - now intros ->.
  - intros m ->. reflexivity.
  - intros r. destruct (eq_int code 401); discriminate.
Qed.

End Parsing.

Lemma parse_json_error_status_witness :
  _parse_json plain_builtins
    (VDict [(lit "status", VDict [ (lit "code", VInt 401);
                                   (lit "message", VStr (lit "Invalid key")) ])])
    true
  = Raise (GeocoderAuthenticationFailure
             (lit "Error returned by What3Words: Invalid key"))
  /\
  _parse_json plain_builtins
    (VDict [(lit "status", VDict [ (lit "code", VInt 3);
                                   (lit "message", VStr (lit "Bad coordinates")) ])])
    true
  = Raise (GeocoderQueryError
             (lit "Error returned by What3Words: Bad coordinates")).
Proof.
  split.
  - apply (parse_json_error_status plain_builtins
             (VDict [(lit "status", VDict [ (lit "code", VInt 401);
                        (lit "message", VStr (lit "Invalid key")) ])])
             (status := VDict [ (lit "code", VInt 401);
                                (lit "message", VStr (lit "Invalid key")) ])
             (code := VInt 401) (message := VStr (lit "Invalid key")) true);
      reflexivity.
  - apply (parse_json_error_status plain_builtins
             (VDict [(lit "status", VDict [ (lit "code", VInt 3);
                        (lit "message", VStr (lit "Bad coordinates")) ])])
             (status := VDict [ (lit "code", VInt 3);
                                (lit "message", VStr (lit "Bad coordinates")) ])
             (code := VInt 3) (message := VStr (lit "Bad coordinates")) true);
      reflexivity.
Defined.

Section Records.
Variable bi : Builtins.

Lemma parse_json_ok_status (resources : value) (exactly_one : bool) :
  status_ok resources ->
  _parse_json bi resources exactly_one
  = obind (parse_resource bi resources)
          (fun location =>
             if exactly_one then Ok (One location) else Ok (Many [location])).
Proof.
  intros (status & code & Hs & Hc & Ht). unfold _parse_json.
  rewrite Hs. simpl. rewrite Hc. simpl. now rewrite Ht.
Qed.

(** C4. For a response with a non-error status and a geometry object,
    the coordinates are passed through [float] exactly when both are
    truthy; when either is falsy (a zero, for one) both reach the point of
    the location as the decoder produced them. *)
Theorem parse_json_coerces_truthy_coordinates
        (resources words position latitude longitude : value) :
  status_ok resources ->
  getitem resources (lit "geometry") = Ok position ->
  getitem resources (lit "words") = Ok words ->
  getitem position (lit "lat") = Ok latitude ->
  getitem position (lit "lng") = Ok longitude ->
  (truthy latitude && truthy longitude = true ->
   _parse_json bi resources true
   = obind (py_float bi latitude) (fun latitude' =>
     obind (py_float bi longitude) (fun longitude' =>
     Ok (One {| label := words; point := (latitude', longitude');
                raw := resources |})))) /\
  (truthy latitude && truthy longitude = false ->
   _parse_json bi resources true
   = Ok (One {| label := words; point := (latitude, longitude);
                raw := resources |})) /\
  (latitude = VInt 0 \/ longitude = VInt 0 \/
   latitude = VFloat 0%float \/ longitude = VFloat 0%float ->
   truthy latitude && truthy longitude = false).
Proof.
  intros Hok Hg Hw Hlat Hlng.
  rewrite (parse_json_ok_status _ Hok). unfold parse_resource.
  rewrite (getitem_contains _ _ Hg). simpl.
  rewrite Hw, Hg. simpl. rewrite Hlat, Hlng. simpl.
  repeat split.
  - intros ->. simpl.
    destruct (py_float bi latitude); simpl; [|reflexivity].
    destruct (py_float bi longitude); reflexivity.
  - intros ->. reflexivity.
  - intros [-> | [-> | [-> | ->]]]; simpl;
      rewrite ?andb_false_r; reflexivity.
Qed.

End Records.

Lemma parse_json_coerces_truthy_coordinates_witness :
  _parse_json plain_builtins equator_body true
  = Ok (One {| label := VStr (lit "index.home.raft");
               point := (VInt 0, VFloat 9.5%float);
               raw := equator_body |}).
Proof.
  apply (parse_json_coerces_truthy_coordinates plain_builtins
           (resources := equator_body)
           (words := VStr (lit "index.home.raft"))
           (position := VDict [ (lit "lat", VInt 0);
                                (lit "lng", VFloat 9.5%float) ])
           (latitude := VInt 0) (longitude := VFloat 9.5%float));
    try reflexivity.
  exists (VDict [(lit "reason", VStr (lit "OK"))]), VNone.
  repeat split; reflexivity.
Defined.

(** ** The two operations, step by step *)

Section Operations.
Variable ucd : UnicodeData.
Variable bi : Builtins.
Variable env : Collaborators.

(** [geocode] stops at the validation or at the encoding of the
    parameters, or else sends one request and parses the answer. *)
Lemma geocode_run (self : What3Words) (query lang : str) (exactly_one : bool)
      (timeout : setting) (w : World) :
  geocode ucd bi env self query lang exactly_one timeout w
  = if negb (_check_query ucd query) then
      (Raise (GeocoderQueryError (lit "Search string must be 'word.word.word'")), w)
    else
      match urlencode bi [ (lit "addr", VStr query);
                           (lit "lang", VStr (lower ucd lang));
                           (lit "key", api_key self) ] with
      | Raise e => (Raise e, w)
      | Ok encoded =>
          let url := geocode_api self ++ lit "?" ++ encoded in
          (obind (transport env url timeout)
                 (fun resources => _parse_json bi resources exactly_one),
           after_request (lit "What3Words.geocode: ") url timeout w)
      end.
Proof.
  unfold geocode. destruct (negb (_check_query ucd query)); [reflexivity|].
  unfold bind, lift, logger_debug, _call_geocoder, after_request. cbn [join].
  destruct (urlencode bi _) as [encoded|e]; [|reflexivity]. cbn.
  destruct (transport env _ timeout); reflexivity.
Qed.

(** [reverse] stops at the normalisation of the point or at the encoding
    of the parameters, or else sends one request and parses the answer. *)
Lemma reverse_run (self : What3Words) (query : value) (lang : str)
      (exactly_one : bool) (timeout : setting) (w : World) :
  reverse ucd bi env self query lang exactly_one timeout w
  = match _coerce_point_to_string env query with
    | Raise e => (Raise e, w)
    | Ok coords =>
        match urlencode bi [ (lit "coords", VStr coords);
                             (lit "lang", VStr (lower ucd (lower ucd lang)));
                             (lit "key", api_key self) ] with
        | Raise e => (Raise e, w)
        | Ok encoded =>
            let url := reverse_api self ++ lit "?" ++ encoded in
            (obind (transport env url timeout)
                   (fun resources => _parse_json bi resources exactly_one),
             after_request (lit "What3Words.reverse: ") url timeout w)
        end
    end.
Proof.
  unfold reverse, bind, lift, logger_debug, _call_geocoder, after_request,
    _parse_reverse_json. cbn [join].
  destruct (_coerce_point_to_string env query) as [coords|e]; [|reflexivity].
  destruct (urlencode bi _) as [encoded|e]; [|reflexivity]. cbn.
  destruct (transport env _ timeout); reflexivity.
Qed.

End Operations.

(** ** Responses without a geometry *)

Section MissingGeometry.
Variable ucd : UnicodeData.
Variable bi : Builtins.
Variable env : Collaborators.

Lemma parse_resource_without_geometry (members : list (str * value)) :
  dict_lookup members (lit "geometry") = None ->
  parse_resource bi (VDict members)
  = Raise (GeocoderParseError (lit "Error parsing result.")).
Proof.
  intros H. unfold parse_resource, contains. now rewrite H.
Qed.

(** C5, as the code has it. A response without a geometry member whose
    status is an object with no truthy code makes parsing raise the parse
    error, whose message is "Error parsing result." with its full stop,
    for forward and reverse parsing alike, and a lookup whose request is
    answered by such a body raises it too and returns no location. A
    response without a geometry member and without a status member raises
    [KeyError] for the status instead, and one whose status is not an
    object raises [AttributeError]. *)
Theorem parse_json_without_geometry
        (members : list (str * value)) (exactly_one : bool) :
  dict_lookup members (lit "geometry") = None ->
  let failure : outcome result :=
    Raise (GeocoderParseError (lit "Error parsing result.")) in
  (status_ok (VDict members) ->
   _parse_json bi (VDict members) exactly_one = failure /\
   _parse_reverse_json bi (VDict members) exactly_one = failure /\
   (forall self query lang timeout w,
       (forall url, transport env url timeout = Ok (VDict members)) ->
       requests (snd (geocode ucd bi env self query lang exactly_one timeout w))
       <> requests w ->
       fst (geocode ucd bi env self query lang exactly_one timeout w) = failure) /\
   (forall self query lang timeout w,
       (forall url, transport env url timeout = Ok (VDict members)) ->
       requests (snd (reverse ucd bi env self query lang exactly_one timeout w))
       <> requests w ->
       fst (reverse ucd bi env self query lang exactly_one timeout w) = failure)) /\
  (dict_lookup members (lit "status") = None ->
   _parse_json bi (VDict members) exactly_one = Raise (KeyError (lit "status")) /\
   _parse_reverse_json bi (VDict members) exactly_one
   = Raise (KeyError (lit "status"))) /\
  (forall status,
      dict_lookup members (lit "status") = Some status ->
      (forall d, status <> VDict d) ->
      _parse_json bi (VDict members) exactly_one = Raise AttributeError /\
      _parse_reverse_json bi (VDict members) exactly_one = Raise AttributeError).
Proof.
  intros Hg failure. split; [|split].
  - intros Hok.
    assert (Hp : _parse_json bi (VDict members) exactly_one = failure).
    { rewrite (parse_json_ok_status _ _ Hok).
      now rewrite parse_resource_without_geometry. }
    repeat split; auto.
    + intros self query lang timeout w Ht. rewrite geocode_run.
      destruct (negb (_check_query ucd query)); simpl; [congruence|].
      destruct (urlencode bi _); simpl; [|congruence].
      intros _. now rewrite Ht.
    + intros self query lang timeout w Ht. rewrite reverse_run.
      destruct (_coerce_point_to_string env query); simpl; [|congruence].
      destruct (urlencode bi _); simpl; [|congruence].
      intros _. now rewrite Ht.
  - intros Hs. unfold _parse_reverse_json, _parse_json. simpl.
    rewrite Hs. now split.
  - intros status Hs Hn. unfold _parse_reverse_json, _parse_json. simpl.
    rewrite Hs. simpl.
    destruct status; try (now split). now destruct (Hn members0).
Qed.

End MissingGeometry.

Lemma parse_json_without_geometry_witness :
  _parse_json plain_builtins no_geometry_body true
  = Raise (GeocoderParseError (lit "Error parsing result.")).
Proof.
  apply (proj1 (@parse_json_without_geometry ascii_only plain_builtins
                  (stub no_geometry_body)
                  [ (lit "status", VDict [(lit "reason", VStr (lit "OK"))]);
                    (lit "words", VStr (lit "index.home.raft")) ]
                  true eq_refl)).
  exists (VDict [(lit "reason", VStr (lit "OK"))]), VNone.
  split; [|split]; reflexivity.
Defined.

(** The message of the parse error is not the text "Error parsing
    result": the source ends it with a full stop. And a body without
    geometry raises no parse error at all when it has no status object:
    the empty object raises [KeyError], a [null] status [AttributeError]. *)
Lemma parse_error_message_differs :
  _parse_json plain_builtins no_geometry_body true
  = Raise (GeocoderParseError (lit "Error parsing result."))
  /\ _parse_json plain_builtins no_geometry_body true
     <> Raise (GeocoderParseError (lit "Error parsing result"))
  /\ fst (geocode ascii_only plain_builtins (stub no_geometry_body)
                  (client (VStr (lit "key"))) (lit "index.home.raft") (lit "en")
                  true DEFAULT_SENTINEL fresh_world)
     <> Raise (GeocoderParseError (lit "Error parsing result"))
  /\ _parse_json plain_builtins empty_body true
     = Raise (KeyError (lit "status"))
  /\ _parse_json plain_builtins null_status_body true = Raise AttributeError
  /\ fst (geocode ascii_only plain_builtins (stub empty_body)
                  (client (VStr (lit "key"))) (lit "index.home.raft") (lit "en")
                  true DEFAULT_SENTINEL fresh_world)
     = Raise (KeyError (lit "status")).
Proof.
  split; [reflexivity|].
  split; [vm_compute; discriminate|].
  split; [vm_compute; discriminate|].
  split; [reflexivity|]. split; [reflexivity|]. vm_compute. reflexivity.
Qed.

(** ** One result or a one-element list *)

Section ExactlyOne.
Variable ucd : UnicodeData.
Variable bi : Builtins.
Variable env : Collaborators.

(** Parsing raises whatever the flag is, or finds one location and wraps
    it as the flag asks. *)
Lemma parse_json_flag (resources : value) :
  (exists e, forall exactly_one,
        _parse_json bi resources exactly_one = Raise e) \/
  (exists location, forall exactly_one,
        _parse_json bi resources exactly_one
        = Ok (if exactly_one then One location else Many [location])).
Proof.
  unfold _parse_json.
  destruct (getitem resources (lit "status")) as [status|e]; simpl;
    [|left; now exists e].
  destruct (get status (lit "code")) as [code|e]; simpl; [|left; now exists e].
  destruct (truthy code).
  - destruct (getitem status (lit "message")) as [message|e]; simpl;
      [|left; now exists e].
    destruct (eq_int code 401); left; eexists; intros; reflexivity.
  - destruct (parse_resource bi resources) as [location|e]; simpl.
    + right. exists location. now intros [|].
    + left. now exists e.
Qed.

Lemma wrap_flag (c : bool -> outcome result) (r : result) :
  ((exists e, forall exactly_one, c exactly_one = Raise e) \/
   (exists location, forall exactly_one,
         c exactly_one
         = Ok (if exactly_one then One location else Many [location]))) ->
  c true = Ok r ->
  exists location, r = One location /\ c false = Ok (Many [location]).
Proof.
  intros [[e H] | [location H]] Hr.
  - rewrite H in Hr. discriminate.
  - rewrite (H true) in Hr. injection Hr as <-. exists location.
    split; [reflexivity | apply (H false)].
Qed.

Lemma geocode_flag (self : What3Words) (query lang : str)
      (timeout : setting) (w : World) :
  (exists e, forall exactly_one,
        fst (geocode ucd bi env self query lang exactly_one timeout w)
        = Raise e) \/
  (exists location, forall exactly_one,
        fst (geocode ucd bi env self query lang exactly_one timeout w)
        = Ok (if exactly_one then One location else Many [location])).
Proof.
  destruct (negb (_check_query ucd query)) eqn:Eq.
  { left. eexists. intros f. rewrite geocode_run, Eq. reflexivity. }
  destruct (urlencode bi [ (lit "addr", VStr query);
                           (lit "lang", VStr (lower ucd lang));
                           (lit "key", api_key self) ]) as [encoded|e] eqn:Eu.
  2:{ left. exists e. intros f. rewrite geocode_run, Eq, Eu. reflexivity. }
  destruct (transport env (geocode_api self ++ lit "?" ++ encoded) timeout)
    as [resources|e] eqn:Et.
  2:{ left. exists e. intros f. rewrite geocode_run, Eq, Eu. cbv zeta.
      cbn [fst]. now rewrite Et. }
  destruct (parse_json_flag resources) as [[e H] | [location H]];
    [left; exists e | right; exists location];
    intros f; rewrite geocode_run, Eq, Eu; cbv zeta; cbn [fst];
    rewrite Et; apply H.
Qed.

Lemma reverse_flag (self : What3Words) (query : value) (lang : str)
      (timeout : setting) (w : World) :
  (exists e, forall exactly_one,
        fst (reverse ucd bi env self query lang exactly_one timeout w)
        = Raise e) \/
  (exists location, forall exactly_one,
        fst (reverse ucd bi env self query lang exactly_one timeout w)
        = Ok (if exactly_one then One location else Many [location])).
Proof.
  destruct (_coerce_point_to_string env query) as [coords|e] eqn:Ec.
  2:{ left. exists e. intros f. rewrite reverse_run, Ec. reflexivity. }
  destruct (urlencode bi [ (lit "coords", VStr coords);
                           (lit "lang", VStr (lower ucd (lower ucd lang)));
                           (lit "key", api_key self) ]) as [encoded|e] eqn:Eu.
  2:{ left. exists e. intros f. rewrite reverse_run, Ec, Eu. reflexivity. }
  destruct (transport env (reverse_api self ++ lit "?" ++ encoded) timeout)
    as [resources|e] eqn:Et.
  2:{ left. exists e. intros f. rewrite reverse_run, Ec, Eu. cbv zeta.
      cbn [fst]. now rewrite Et. }
  destruct (parse_json_flag resources) as [[e H] | [location H]];
    [left; exists e | right; exists location];
    intros f; rewrite reverse_run, Ec, Eu; cbv zeta; cbn [fst];
    rewrite Et; apply H.
Qed.

(** C6. Whenever a call asking for exactly one result succeeds, it
    returns a single location, and the same call asking for a list returns
    the one-element list of that location: for the parser, for [geocode]
    and for [reverse]. *)
Theorem exactly_one_false_wraps_the_location :
  (forall resources r,
      _parse_json bi resources true = Ok r ->
      exists location,
        r = One location /\
        _parse_json bi resources false = Ok (Many [location])) /\
  (forall self query lang timeout w r,
      fst (geocode ucd bi env self query lang true timeout w) = Ok r ->
      exists location,
        r = One location /\
        fst (geocode ucd bi env self query lang false timeout w)
        = Ok (Many [location])) /\
  (forall self query lang timeout w r,
      fst (reverse ucd bi env self query lang true timeout w) = Ok r ->
      exists location,
        r = One location /\
        fst (reverse ucd bi env self query lang false timeout w)
        = Ok (Many [location])).
Proof.
  split; [|split].
  - intros resources r.
    apply (wrap_flag (fun f => _parse_json bi resources f)).
    apply parse_json_flag.
  - intros self query lang timeout w r.
    apply (wrap_flag
             (fun f => fst (geocode ucd bi env self query lang f timeout w))).
    apply geocode_flag.
  - intros self query lang timeout w r.
    apply (wrap_flag
             (fun f => fst (reverse ucd bi env self query lang f timeout w))).
    apply reverse_flag.
Qed.

End ExactlyOne.

Lemma exactly_one_false_wraps_the_location_witness :
  exists location,
    fst (geocode ascii_only plain_builtins (stub sample_body)
                 (client (VStr (lit "key"))) (lit "index.home.raft") (lit "en")
                 false DEFAULT_SENTINEL fresh_world)
    = Ok (Many [location]).
Proof.
  edestruct (proj1 (proj2 (exactly_one_false_wraps_the_location
                             ascii_only plain_builtins (stub sample_body)))
               (client (VStr (lit "key"))) (lit "index.home.raft") (lit "en")
               DEFAULT_SENTINEL fresh_world)
    as (location & _ & H).
  - vm_compute. reflexivity.
  - exists location. exact H.
Defined.

(** ** Request construction *)

Section Requests.
Variable ucd : UnicodeData.
Variable bi : Builtins.
Variable env : Collaborators.

Lemma quote_plus_quoted (s : str) :
  encodable s -> quote_plus s = Ok (quoted s).
Proof.
  intros [bs H]. unfold quoted, quote_plus, quote. rewrite H. simpl.
  destruct (existsb (N.eqb chr_space) s); reflexivity.
Qed.

(** The query string of three parameters whose names need no escaping. *)
Lemma urlencode_three (k1 k2 k3 : str) (v1 v2 v3 : value) :
  quote_plus k1 = Ok k1 -> quote_plus k2 = Ok k2 -> quote_plus k3 = Ok k3 ->
  encodable (py_str bi v1) -> encodable (py_str bi v2) ->
  encodable (py_str bi v3) ->
  urlencode bi [(k1, v1); (k2, v2); (k3, v3)]
  = Ok (k1 ++ lit "=" ++ quoted (py_str bi v1) ++ lit "&" ++
        k2 ++ lit "=" ++ quoted (py_str bi v2) ++ lit "&" ++
        k3 ++ lit "=" ++ quoted (py_str bi v3)).
Proof.
  intros Hk1 Hk2 Hk3 H1 H2 H3. unfold urlencode, urlencode_pairs.
  rewrite Hk1, Hk2, Hk3.
  rewrite !quote_plus_quoted by assumption. cbn [obind join].
  now rewrite <- !app_assoc.
Qed.

(** A well-formed query with encodable parameters is sent to the forward
    endpoint, its parameters in the order of the source. *)
Lemma geocode_request (self : What3Words) (query lang : str)
      (exactly_one : bool) (timeout : setting) (w : World) :
  _check_query ucd query = true ->
  encodable query -> encodable (lower ucd lang) ->
  encodable (py_str bi (api_key self)) ->
  let url := geocode_api self ++ lit "?addr=" ++ quoted query ++
             lit "&lang=" ++ quoted (lower ucd lang) ++
             lit "&key=" ++ quoted (py_str bi (api_key self)) in
  geocode ucd bi env self query lang exactly_one timeout w
  = (obind (transport env url timeout)
           (fun resources => _parse_json bi resources exactly_one),
     after_request (lit "What3Words.geocode: ") url timeout w).
Proof.
  intros Hq H1 H2 H3 url. rewrite geocode_run, Hq. cbn [negb].
  rewrite urlencode_three by (assumption || reflexivity). reflexivity.
Qed.

Lemma reverse_request (self : What3Words) (query : value) (coords lang : str)
      (exactly_one : bool) (timeout : setting) (w : World) :
  _coerce_point_to_string env query = Ok coords ->
  encodable coords -> encodable (lower ucd (lower ucd lang)) ->
  encodable (py_str bi (api_key self)) ->
  let url := reverse_api self ++ lit "?coords=" ++ quoted coords ++
             lit "&lang=" ++ quoted (lower ucd (lower ucd lang)) ++
             lit "&key=" ++ quoted (py_str bi (api_key self)) in
  reverse ucd bi env self query lang exactly_one timeout w
  = (obind (transport env url timeout)
           (fun resources => _parse_json bi resources exactly_one),
     after_request (lit "What3Words.reverse: ") url timeout w).
Proof.
  intros Hc H1 H2 H3 url. rewrite reverse_run, Hc.
  rewrite urlencode_three by (assumption || reflexivity). reflexivity.
Qed.

End Requests.

Section Urls.
Variable ucd : UnicodeData.
Variable bi : Builtins.
Variable env : Collaborators.

Lemma ascii_lower_ascii (c : N) :
  is_ascii c = true -> is_ascii (ascii_lower c) = true.
Proof.
  unfold is_ascii, ascii_lower, in_range. intros H. apply N.ltb_lt in H.
  destruct (N.leb 65 c && N.leb c 90) eqn:E; [|now apply N.ltb_lt].
  apply andb_true_iff in E as [_ E]. apply N.leb_le in E.
  apply N.ltb_lt. lia.
Qed.

Lemma ascii_lower_idempotent (c : N) :
  ascii_lower (ascii_lower c) = ascii_lower c.
Proof.
  unfold ascii_lower, in_range.
  destruct (N.leb 65 c && N.leb c 90) eqn:E; [|now rewrite E].
  apply andb_true_iff in E as [E1 E2]. apply N.leb_le in E1, E2.
  replace (N.leb (c + 32) 90) with false
    by (symmetry; apply N.leb_gt; lia).
  now rewrite andb_false_r.
Qed.

(** Lowering an ASCII text twice is lowering it once. *)
Lemma lower_lower_ascii (s : str) :
  forallb is_ascii s = true -> lower ucd (lower ucd s) = lower ucd s.
Proof.
  intros H. unfold lower at 2 3. rewrite H. unfold lower.
  assert (Hm : forallb is_ascii (map ascii_lower s) = true).
  { rewrite forallb_forall in *. intros c Hc.
    apply in_map_iff in Hc as (c' & <- & Hc'). now apply ascii_lower_ascii, H. }
  rewrite Hm, map_map. apply map_ext. intros c. apply ascii_lower_idempotent.
Qed.

(** C7. A client built by the constructor sends a valid phrase to
    https://api.what3words.com/v2/forward, followed by [?] and the
    percent-encoded parameters addr (the phrase), lang (the language,
    lowered) and key (the API key), in that order; [reverse] sends to
    https://api.what3words.com/v2/reverse the parameters coords (the
    normalised point), lang (the language, lowered on both of the two
    occasions the source lowers it) and key, in that order. *)
Theorem request_urls (key : value) (tm px : setting) (ua : value)
        (ssl : setting) (self : What3Words) :
  __init__ env key tm px ua ssl = Ok self ->
  (forall query lang exactly_one timeout w,
      _check_query ucd query = true ->
      encodable query -> encodable (lower ucd lang) ->
      encodable (py_str bi key) ->
      requests (snd (geocode ucd bi env self query lang exactly_one timeout w))
      = requests w ++
        [(lit "https://api.what3words.com/v2/forward" ++ lit "?" ++
          lit "addr=" ++ quoted query ++
          lit "&lang=" ++ quoted (lower ucd lang) ++
          lit "&key=" ++ quoted (py_str bi key), timeout)]) /\
  (forall query coords lang exactly_one timeout w,
      _coerce_point_to_string env query = Ok coords ->
      encodable coords -> encodable (lower ucd (lower ucd lang)) ->
      encodable (py_str bi key) ->
      requests (snd (reverse ucd bi env self query lang exactly_one timeout w))
      = requests w ++
        [(lit "https://api.what3words.com/v2/reverse" ++ lit "?" ++
          lit "coords=" ++ quoted coords ++
          lit "&lang=" ++ quoted (lower ucd (lower ucd lang)) ++
          lit "&key=" ++ quoted (py_str bi key), timeout)]) /\
  (forall lang, forallb is_ascii lang = true ->
                lower ucd (lower ucd lang) = lower ucd lang).
Proof.
  unfold __init__, Geocoder_init.
  destruct (settings_error env _); simpl; [discriminate|].
  intros [= <-]. split; [|split].
  - intros query lang exactly_one timeout w Hq H1 H2 H3.
    rewrite geocode_request by assumption. reflexivity.
  - intros query coords lang exactly_one timeout w Hc H1 H2 H3.
    rewrite reverse_request with (coords := coords) by assumption.
    reflexivity.
  - apply lower_lower_ascii.
Qed.

End Urls.

Lemma request_urls_witness :
  requests (snd (geocode ascii_only plain_builtins (stub sample_body)
                         (client (VStr (lit "k y"))) (lit "index.home.raft")
                         (lit "EN") true DEFAULT_SENTINEL fresh_world))
  = requests fresh_world ++
    [(lit "https://api.what3words.com/v2/forward" ++ lit "?" ++
      lit "addr=" ++ quoted (lit "index.home.raft") ++
      lit "&lang=" ++ quoted (lower ascii_only (lit "EN")) ++
      lit "&key=" ++ quoted (py_str plain_builtins (VStr (lit "k y"))),
      DEFAULT_SENTINEL)].
Proof.
  apply (proj1 (request_urls ascii_only plain_builtins (stub sample_body)
                  (VStr (lit "k y")) DEFAULT_SENTINEL DEFAULT_SENTINEL VNone
                  DEFAULT_SENTINEL (self := client (VStr (lit "k y")))
                  eq_refl));
    try reflexivity; eexists; vm_compute; reflexivity.
Defined.

(** The request of the documentation's address, written out. *)
Example forward_url_example :
  requests (snd (geocode ascii_only plain_builtins (stub sample_body)
                         (client (VStr (lit "k y"))) (lit "index.home.raft")
                         (lit "EN") true DEFAULT_SENTINEL fresh_world))
  = [(lit "https://api.what3words.com/v2/forward?addr=index.home.raft&lang=en&key=k+y",
      DEFAULT_SENTINEL)].
Proof. vm_compute. reflexivity. Qed.

Example reverse_url_example :
  requests (snd (reverse ascii_only plain_builtins (stub sample_body)
                         (client (VStr (lit "k y"))) (VStr (lit "51.5,-0.25"))
                         (lit "EN") true DEFAULT_SENTINEL fresh_world))
  = [(lit "https://api.what3words.com/v2/reverse?coords=51.5%2C-0.25&lang=en&key=k+y",
      DEFAULT_SENTINEL)].
Proof. vm_compute. reflexivity. Qed.

(** ** The label of a location *)

Section Labels.
Variable ucd : UnicodeData.
Variable bi : Builtins.
Variable env : Collaborators.

(** A parsed location keeps the response as its raw record and the
    [words] member of the response as its label. *)
Lemma parse_json_label (resources : value) (exactly_one : bool) (r : result)
      (location : Location) :
  _parse_json bi resources exactly_one = Ok r ->
  In location (locations_of r) ->
  raw location = resources /\
  getitem resources (lit "words") = Ok (label location).
Proof.
  unfold _parse_json.
  destruct (getitem resources (lit "status")) as [status|]; simpl;
    [|discriminate].
  destruct (get status (lit "code")) as [code|]; simpl; [|discriminate].
  destruct (truthy code).
  { destruct (getitem status (lit "message")); simpl; [|discriminate].
    destruct (eq_int code 401); discriminate. }
  unfold parse_resource.
  destruct (contains (lit "geometry") resources) as [[|]|]; simpl;
    try discriminate.
  destruct (getitem resources (lit "words")) as [words|]; simpl;
    [|discriminate].
  destruct (getitem resources (lit "geometry")) as [position|]; simpl;
    [|discriminate].
  destruct (getitem position (lit "lat")) as [latitude|]; simpl;
    [|discriminate].
  destruct (getitem position (lit "lng")) as [longitude|]; simpl;
    [|discriminate].
  destruct (truthy latitude && truthy longitude); simpl.
  - destruct (py_float bi latitude); simpl; [|discriminate].
    destruct (py_float bi longitude); simpl; [|discriminate].
    destruct exactly_one; intros [= <-]; simpl; intros [<- | []]; now split.
  - destruct exactly_one; intros [= <-]; simpl; intros [<- | []]; now split.
Qed.

(** C8, as the code has it. The label of every location a successful
    lookup returns, reverse or forward, is the [words] member of the
    response the transport gave, which the location keeps as its raw
    record; the query plays no part in it. *)
Theorem location_label_is_response_words :
  (forall self query lang exactly_one timeout w r location,
      fst (reverse ucd bi env self query lang exactly_one timeout w) = Ok r ->
      In location (locations_of r) ->
      (exists url, transport env url timeout = Ok (raw location)) /\
      getitem (raw location) (lit "words") = Ok (label location)) /\
  (forall self query lang exactly_one timeout w r location,
      fst (geocode ucd bi env self query lang exactly_one timeout w) = Ok r ->
      In location (locations_of r) ->
      (exists url, transport env url timeout = Ok (raw location)) /\
      getitem (raw location) (lit "words") = Ok (label location)).
Proof.
  split; intros self query lang exactly_one timeout w r location.
  - rewrite reverse_run.
    destruct (_coerce_point_to_string env query); [|discriminate].
    destruct (urlencode bi _) as [encoded|]; [|discriminate].
    cbv zeta. cbn [fst].
    destruct (transport env _ timeout) as [resources|] eqn:Et;
      [|discriminate].
    simpl. intros Hp Hin.
    destruct (parse_json_label _ _ _ Hp Hin) as [-> Hw].
    split; [eexists; exact Et | exact Hw].
  - rewrite geocode_run.
    destruct (negb (_check_query ucd query)); [discriminate|].
    destruct (urlencode bi _) as [encoded|]; [|discriminate].
    cbv zeta. cbn [fst].
    destruct (transport env _ timeout) as [resources|] eqn:Et;
      [|discriminate].
    simpl. intros Hp Hin.
    destruct (parse_json_label _ _ _ Hp Hin) as [-> Hw].
    split; [eexists; exact Et | exact Hw].
Qed.

End Labels.

Lemma location_label_is_response_words_witness :
  getitem sample_body (lit "words")
  = Ok (label {| label := VStr (lit "index.home.raft");
                 point := (VFloat 51.5%float, VFloat (-0.25)%float);
                 raw := sample_body |}).
Proof.
  apply (proj1 (location_label_is_response_words
                  ascii_only plain_builtins (stub sample_body))
           (client (VStr (lit "key"))) (VStr (lit "51.5,-0.25")) (lit "en")
           true DEFAULT_SENTINEL fresh_world
           (One {| label := VStr (lit "index.home.raft");
                   point := (VFloat 51.5%float, VFloat (-0.25)%float);
                   raw := sample_body |})
           {| label := VStr (lit "index.home.raft");
              point := (VFloat 51.5%float, VFloat (-0.25)%float);
              raw := sample_body |}).
  - vm_compute. reflexivity.
  - left. reflexivity.
Defined.

(** A reverse lookup of a point answers with the three-word address of
    the response as its label, not with the point that was asked for; two
    different points answered by the same body get the same label. *)
Lemma reverse_label_is_not_the_query :
  exists location,
    fst (reverse ascii_only plain_builtins (stub sample_body)
                 (client (VStr (lit "key"))) (VStr (lit "51.5,-0.25"))
                 (lit "en") true DEFAULT_SENTINEL fresh_world)
    = Ok (One location)
    /\ fst (reverse ascii_only plain_builtins (stub sample_body)
                    (client (VStr (lit "key"))) (VStr (lit "10.0,20.0"))
                    (lit "en") true DEFAULT_SENTINEL fresh_world)
       = Ok (One location)
    /\ label location = VStr (lit "index.home.raft")
    /\ label location <> VStr (lit "51.5,-0.25")
    /\ label location <> VStr (lit "10.0,20.0").
Proof.
  eexists. split; [vm_compute; reflexivity|].
  split; [vm_compute; reflexivity|].
  split; [reflexivity|]. split; vm_compute; discriminate.
Qed.

(** ** Construction *)

Section Construction.
Variable env : Collaborators.

(** C9, as the code has it. The constructor does not look at the key:
    whatever the key, empty or not, construction succeeds exactly when the
    base class accepts the transport settings, and the client then holds
    the key as given and the two endpoint URLs; the only failure is the
    configuration error of the base class for malformed settings. *)
Theorem init_stores_any_key (key : value) (tm px : setting) (ua : value)
        (ssl : setting) :
  let s := {| timeout := tm; proxies := px; user_agent := ua;
              ssl_context := ssl |} in
  (settings_error env s = None ->
   __init__ env key tm px ua ssl
   = Ok {| base := {| scheme := lit "https"; settings := s |};
           api_key := key;
           geocode_api := lit "https://api.what3words.com/v2/forward";
           reverse_api := lit "https://api.what3words.com/v2/reverse" |}) /\
  (forall msg, settings_error env s = Some msg ->
               __init__ env key tm px ua ssl = Raise (ConfigurationError msg)) /\
  (forall e, __init__ env key tm px ua ssl = Raise e ->
             exists msg, e = ConfigurationError msg /\
                         settings_error env s = Some msg).
Proof.
  intros s. unfold __init__, Geocoder_init. fold s.
  destruct (settings_error env s) as [msg|]; simpl; repeat split;
    try discriminate; try reflexivity.
  - now intros ? [= <-].
  - intros e [= <-]. now exists msg.
Qed.

End Construction.

Lemma init_stores_any_key_witness :
  __init__ (stub sample_body) (VStr (lit "secret")) DEFAULT_SENTINEL
           DEFAULT_SENTINEL VNone DEFAULT_SENTINEL
  = Ok (client (VStr (lit "secret"))).
Proof.
  apply (proj1 (init_stores_any_key (stub sample_body) (VStr (lit "secret"))
                  DEFAULT_SENTINEL DEFAULT_SENTINEL VNone DEFAULT_SENTINEL)).
  reflexivity.
Defined.

(** Construction with the empty key, and with no key at all, succeeds. *)
Lemma init_accepts_empty_key :
  __init__ (stub sample_body) (VStr []) DEFAULT_SENTINEL DEFAULT_SENTINEL
           VNone DEFAULT_SENTINEL
  = Ok (client (VStr []))
  /\ __init__ (stub sample_body) VNone DEFAULT_SENTINEL DEFAULT_SENTINEL
              VNone DEFAULT_SENTINEL
     = Ok (client VNone)
  /\ (forall msg,
         __init__ (stub sample_body) (VStr []) DEFAULT_SENTINEL
                  DEFAULT_SENTINEL VNone DEFAULT_SENTINEL
         <> Raise (ConfigurationError msg)).
Proof.
  split; [reflexivity | split; [reflexivity | discriminate]].
Qed.

(** ** The end anchor and a final newline *)

Section TrailingNewline.
Variable ucd : UnicodeData.
Variable bi : Builtins.
Variable env : Collaborators.

(** C10. A text of the shape word.word.word followed by one newline
    passes [_check_query] although its last character is not a letter, and
    [geocode] goes on to send it to the transport. *)
Theorem check_query_accepts_trailing_newline (w1 w2 w3 : str) :
  word_group ucd w1 -> word_group ucd w2 -> word_group ucd w3 ->
  _check_query ucd (three_words w1 w2 w3 ++ [chr_newline]) = true /\
  is_letter ucd (last (three_words w1 w2 w3 ++ [chr_newline]) 0%N) = false /\
  (forall self lang exactly_one timeout w,
      encodable (three_words w1 w2 w3 ++ [chr_newline]) ->
      encodable (lower ucd lang) ->
      encodable (py_str bi (api_key self)) ->
      requests (snd (geocode ucd bi env self
                             (three_words w1 w2 w3 ++ [chr_newline])
                             lang exactly_one timeout w))
      = requests w ++
        [(geocode_api self ++ lit "?addr=" ++
          quoted (three_words w1 w2 w3 ++ [chr_newline]) ++
          lit "&lang=" ++ quoted (lower ucd lang) ++
          lit "&key=" ++ quoted (py_str bi (api_key self)), timeout)]).
Proof.
  intros H1 H2 H3.
  assert (Hq : _check_query ucd (three_words w1 w2 w3 ++ [chr_newline]) = true).
  { apply check_query_iff. exists w1, w2, w3, [chr_newline].
    unfold three_words. rewrite <- !app_assoc. simpl. auto. }
  split; [exact Hq | split].
  - rewrite last_last. reflexivity.
  - intros self lang exactly_one timeout w He Hl Hk.
    rewrite geocode_request by assumption. reflexivity.
Qed.

End TrailingNewline.

Lemma check_query_accepts_trailing_newline_witness :
  _check_query ascii_only
    (three_words (lit "index") (lit "home") (lit "raft") ++ [chr_newline])
  = true.
Proof.
  apply (@check_query_accepts_trailing_newline ascii_only plain_builtins
           (stub sample_body) (lit "index") (lit "home") (lit "raft"));
    split; (discriminate || reflexivity).
Defined.

(** The request the newline-terminated address of the documentation
    produces: the newline travels percent-encoded. *)
Example trailing_newline_request :
  requests (snd (geocode ascii_only plain_builtins (stub sample_body)
                         (client (VStr (lit "key")))
                         (lit "index.home.raft" ++ [chr_newline]) (lit "en")
                         true DEFAULT_SENTINEL fresh_world))
  = [(lit "https://api.what3words.com/v2/forward?addr=index.home.raft%0A&lang=en&key=key",
      DEFAULT_SENTINEL)].
Proof. vm_compute. reflexivity. Qed.

(** * Further properties of the module *)

(** ** The language of the query pattern *)

Section PatternLanguage.
Variable ucd : UnicodeData.

(** X1. [_check_query] accepts exactly the texts word.word.word, each
    word one or more letters, optionally followed by a single final
    newline. *)
Theorem check_query_exact_language (s : str) :
  _check_query ucd s = true <->
  exists w1 w2 w3,
    word_group ucd w1 /\ word_group ucd w2 /\ word_group ucd w3 /\
    (s = three_words w1 w2 w3 \/ s = three_words w1 w2 w3 ++ [chr_newline]).
Proof.
  rewrite check_query_iff. unfold three_words. split.
  - intros (w1 & w2 & w3 & tail & -> & H1 & H2 & H3 & Ht).
    exists w1, w2, w3. repeat split; try apply H1; try apply H2; try apply H3.
    apply at_end_cases in Ht as [-> | ->]; [left | right].
    + now rewrite app_nil_r.
    + rewrite <- !app_assoc. reflexivity.
  - intros (w1 & w2 & w3 & H1 & H2 & H3 & [-> | ->]).
    + exists w1, w2, w3, []. rewrite app_nil_r. auto.
    + exists w1, w2, w3, [chr_newline]. rewrite <- !app_assoc. simpl. auto.
Qed.

Lemma ascii_alpha_not_decimal (c : N) :
  ascii_isalpha c = true ->
  ascii_isdecimal c = false /\ N.eqb c chr_underscore = false.
Proof.
  unfold ascii_isalpha, ascii_isdecimal, in_range, chr_underscore.
  intros H. apply orb_true_iff in H.
  rewrite !andb_true_iff, !N.leb_le in H. split.
  - apply andb_false_iff. rewrite !N.leb_gt. lia.
  - apply N.eqb_neq. lia.
Qed.

(** X2. On the ASCII range the character set of the pattern is the
    fifty-two letters, whatever the Unicode data says elsewhere. *)
Theorem word_letter_on_ascii (c : N) :
  is_ascii c = true ->
  atom_matches ucd word_letter c = ascii_isalpha c.
Proof.
  intros Ha. rewrite word_letter_matches.
  unfold is_letter, isalnum, isdecimal. rewrite Ha. unfold ascii_isalnum.
  destruct (ascii_isalpha c) eqn:E.
  - destruct (ascii_alpha_not_decimal _ E) as [-> ->]. reflexivity.
  - simpl. now destruct (ascii_isdecimal c).
Qed.


(** X4. An accepted text holds a newline nowhere but at its very end. *)
Theorem check_query_newline_only_last (s pre post : str) :
  _check_query ucd s = true ->
  s = pre ++ chr_newline :: post ->
  post = [].
Proof.
  intros E Hs. apply check_query_iff in E
    as (w1 & w2 & w3 & tail & Hb & [_ L1] & [_ L2] & [_ L3] & Ht).
  assert (Hbody : forallb (fun c => negb (N.eqb c chr_newline))
                          (w1 ++ chr_dot :: w2 ++ chr_dot :: w3) = true).
  { assert (Hl : forall w, forallb (is_letter ucd) w = true ->
                           forallb (fun c => negb (N.eqb c chr_newline)) w = true).
    { intros w Hw. rewrite forallb_forall in *. intros c Hc.
      specialize (Hw c Hc). destruct (N.eqb_spec c chr_newline) as [->|];
        [|reflexivity].
      rewrite newline_not_letter in Hw. discriminate. }
    rewrite forallb_app. cbn [forallb]. rewrite forallb_app. cbn [forallb].
    rewrite !Hl by assumption. reflexivity. }
  assert (Hs' : (w1 ++ chr_dot :: w2 ++ chr_dot :: w3) ++ tail
                = pre ++ chr_newline :: post).
  { rewrite <- Hs, Hb. rewrite <- !app_assoc. simpl.
    rewrite <- !app_assoc. reflexivity. }
  clear Hb Hs L1 L2 L3.
  revert pre Hs'.
  induction (w1 ++ chr_dot :: w2 ++ chr_dot :: w3) as [|b body IH];
    intros pre Hs'.
  - simpl in Hs'. apply at_end_cases in Ht as [-> | ->].
    + destruct pre; discriminate.
    + destruct pre as [|p [|p' pre]]; simpl in Hs'; try discriminate.
      now injection Hs' as <-.
  - simpl in Hbody. apply andb_true_iff in Hbody as [Hb Hbody].
    destruct pre as [|p pre]; simpl in Hs'.
    + injection Hs' as -> _. rewrite N.eqb_refl in Hb. discriminate.
    + injection Hs' as _ Hs'. apply (IH Hbody pre Hs').
Qed.

End PatternLanguage.

Lemma word_letter_on_ascii_witness :
  atom_matches ascii_only word_letter 122 = ascii_isalpha 122 /\
  atom_matches ascii_only word_letter 95 = ascii_isalpha 95.
Proof.
  split; apply word_letter_on_ascii; reflexivity.
Defined.


Lemma check_query_newline_only_last_witness :
  @nil N = [].
Proof.
  apply (@check_query_newline_only_last ascii_only
           (lit "index.home.raft" ++ [chr_newline]) (lit "index.home.raft") []);
    reflexivity.
Defined.

(** ** Malformed responses *)

Section MalformedResponses.
Variable bi : Builtins.

(** X5. Parsing reads the status before anything else: a response that
    is not an object raises [TypeError], an object without a status member
    raises [KeyError] for it even when words and geometry are there, and a
    status that is not an object raises [AttributeError]. *)
Theorem parse_json_needs_status_object (resources : value) (exactly_one : bool) :
  ((forall d, resources <> VDict d) ->
   _parse_json bi resources exactly_one = Raise TypeError) /\
  (forall d, resources = VDict d ->
             dict_lookup d (lit "status") = None ->
             _parse_json bi resources exactly_one
             = Raise (KeyError (lit "status"))) /\
  (forall status, getitem resources (lit "status") = Ok status ->
                  (forall d, status <> VDict d) ->
                  _parse_json bi resources exactly_one = Raise AttributeError).
Proof.
  unfold _parse_json. split; [|split].
  - intros H. destruct resources; try reflexivity. now destruct (H members).
  - intros d -> H. simpl. now rewrite H.
  - intros status Hs H. rewrite Hs. simpl.
    destruct status; try reflexivity. now destruct (H members).
Qed.

(** X6. An error status without a message member raises [KeyError] for
    the message, not the authentication or query error. *)
Theorem parse_json_error_without_message
        (resources : value) (d : list (str * value)) (code : value)
        (exactly_one : bool) :
  getitem resources (lit "status") = Ok (VDict d) ->
  dict_lookup d (lit "code") = Some code ->
  truthy code = true ->
  dict_lookup d (lit "message") = None ->
  _parse_json bi resources exactly_one = Raise (KeyError (lit "message")).
Proof.
  intros Hs Hc Ht Hm. unfold _parse_json. rewrite Hs. simpl.
  rewrite Hc. simpl. rewrite Ht, Hm. reflexivity.
Qed.

(** X7. What a successful parse tells about the response: its status is
    an object with no truthy code, it has the members words and geometry,
    the geometry has lat and lng, and the single location returned carries
    the words as label, the whole response as raw record and, as point,
    the two coordinates, passed through [float] when both are truthy. *)
Theorem parse_json_success_shape
        (resources : value) (exactly_one : bool) (r : result) :
  _parse_json bi resources exactly_one = Ok r ->
  status_ok resources /\
  exists words position latitude longitude location,
    getitem resources (lit "words") = Ok words /\
    getitem resources (lit "geometry") = Ok position /\
    getitem position (lit "lat") = Ok latitude /\
    getitem position (lit "lng") = Ok longitude /\
    r = (if exactly_one then One location else Many [location]) /\
    label location = words /\
    raw location = resources /\
    (if truthy latitude && truthy longitude
     then py_float bi latitude = Ok (fst (point location)) /\
          py_float bi longitude = Ok (snd (point location))
     else point location = (latitude, longitude)).
Proof.
  unfold _parse_json.
  destruct (getitem resources (lit "status")) as [status|] eqn:Es; simpl;
    [|discriminate].
  destruct (get status (lit "code")) as [code|] eqn:Ec; simpl; [|discriminate].
  destruct (truthy code) eqn:Et.
  { destruct (getitem status (lit "message")); simpl; [|discriminate].
    destruct (eq_int code 401); discriminate. }
  unfold parse_resource.
  destruct (contains (lit "geometry") resources) as [[|]|]; simpl;
    try discriminate.
  destruct (getitem resources (lit "words")) as [words|] eqn:Ew; simpl;
    [|discriminate].
  destruct (getitem resources (lit "geometry")) as [position|] eqn:Eg; simpl;
    [|discriminate].
  destruct (getitem position (lit "lat")) as [latitude|] eqn:Elat; simpl;
    [|discriminate].
  destruct (getitem position (lit "lng")) as [longitude|] eqn:Elng; simpl;
    [|discriminate].
  intros H. split; [now exists status, code|].
  exists words, position, latitude, longitude.
  destruct (truthy latitude && truthy longitude); simpl in H.
  - destruct (py_float bi latitude) as [latitude'|]; simpl in H;
      [|discriminate].
    destruct (py_float bi longitude) as [longitude'|]; simpl in H;
      [|discriminate].
    exists {| label := words; point := (latitude', longitude');
              raw := resources |}.
    repeat split; try assumption.
    destruct exactly_one; injection H as <-; reflexivity.
  - exists {| label := words; point := (latitude, longitude);
              raw := resources |}.
    repeat split; try assumption.
    destruct exactly_one; injection H as <-; reflexivity.
Qed.

(** X8. Coordinates the decoder produced as floats reach the location
    unchanged, zero or not: on them the coercion changes nothing. *)
Theorem parse_json_keeps_float_coordinates
        (resources words position : value) (lat lng : float) :
  status_ok resources ->
  getitem resources (lit "geometry") = Ok position ->
  getitem resources (lit "words") = Ok words ->
  getitem position (lit "lat") = Ok (VFloat lat) ->
  getitem position (lit "lng") = Ok (VFloat lng) ->
  _parse_json bi resources true
  = Ok (One {| label := words; point := (VFloat lat, VFloat lng);
               raw := resources |}).
Proof.
  intros Hok Hg Hw Hlat Hlng.
  rewrite (parse_json_ok_status _ _ Hok). unfold parse_resource.
  rewrite (getitem_contains _ _ Hg). simpl.
  rewrite Hw, Hg. simpl. rewrite Hlat, Hlng. simpl.
  destruct (negb (PrimFloat.eqb lat 0) && negb (PrimFloat.eqb lng 0));
    reflexivity.
Qed.


End MalformedResponses.

Lemma parse_json_needs_status_object_witness :
  _parse_json plain_builtins statusless_body true
  = Raise (KeyError (lit "status")).
Proof.
  apply (proj1 (proj2 (parse_json_needs_status_object
                         plain_builtins statusless_body true))
           [ (lit "words", VStr (lit "index.home.raft"));
             (lit "geometry", VDict [ (lit "lat", VFloat 51.5%float);
                                      (lit "lng", VFloat (-0.25)%float) ]) ]);
    reflexivity.
Defined.

Lemma parse_json_error_without_message_witness :
  _parse_json plain_builtins no_message_body true
  = Raise (KeyError (lit "message")).
Proof.
  apply (@parse_json_error_without_message plain_builtins no_message_body
           [(lit "code", VInt 401)] (VInt 401) true);
    reflexivity.
Defined.

Lemma parse_json_success_shape_witness :
  status_ok sample_body.
Proof.
  apply (@parse_json_success_shape plain_builtins sample_body true
           (One {| label := VStr (lit "index.home.raft");
                   point := (VFloat 51.5%float, VFloat (-0.25)%float);
                   raw := sample_body |})).
  vm_compute. reflexivity.
Defined.

Lemma parse_json_keeps_float_coordinates_witness :
  _parse_json plain_builtins meridian_body true
  = Ok (One {| label := VStr (lit "index.home.raft");
               point := (VFloat 51.5%float, VFloat 0%float);
               raw := meridian_body |}).
Proof.
  apply (@parse_json_keeps_float_coordinates plain_builtins meridian_body
           (VStr (lit "index.home.raft"))
           (VDict [ (lit "lat", VFloat 51.5%float);
                    (lit "lng", VFloat 0%float) ])
           51.5%float 0%float);
    try reflexivity.
  exists (VDict [(lit "reason", VStr (lit "OK"))]), VNone.
  split; [|split]; reflexivity.
Defined.


(** ** The effects of a lookup *)

Section Effects.
Variable ucd : UnicodeData.
Variable bi : Builtins.
Variable env : Collaborators.

Lemma requests_not_extended (w : World) (x : str * setting) :
  requests w <> requests w ++ [x].
Proof.
  intros H. apply (f_equal (@List.length _)) in H.
  rewrite length_app in H. simpl in H. lia.
Qed.

(** X10. A lookup changes the world in one way only: it logs one debug
    line naming the URL and hands that URL, with the caller's timeout, to
    the transport, once; or it changes nothing. It returns a result only
    in the first case, and the result is then the parse of what the
    transport answered. *)
Theorem lookups_send_at_most_one_request :
  (forall self query lang exactly_one timeout w,
      (snd (geocode ucd bi env self query lang exactly_one timeout w) = w \/
       exists url,
         snd (geocode ucd bi env self query lang exactly_one timeout w)
         = after_request (lit "What3Words.geocode: ") url timeout w) /\
      (forall r,
          fst (geocode ucd bi env self query lang exactly_one timeout w) = Ok r ->
          exists url resources,
            snd (geocode ucd bi env self query lang exactly_one timeout w)
            = after_request (lit "What3Words.geocode: ") url timeout w /\
            transport env url timeout = Ok resources /\
            _parse_json bi resources exactly_one = Ok r)) /\
  (forall self query lang exactly_one timeout w,
      (snd (reverse ucd bi env self query lang exactly_one timeout w) = w \/
       exists url,
         snd (reverse ucd bi env self query lang exactly_one timeout w)
         = after_request (lit "What3Words.reverse: ") url timeout w) /\
      (forall r,
          fst (reverse ucd bi env self query lang exactly_one timeout w) = Ok r ->
          exists url resources,
            snd (reverse ucd bi env self query lang exactly_one timeout w)
            = after_request (lit "What3Words.reverse: ") url timeout w /\
            transport env url timeout = Ok resources /\
            _parse_json bi resources exactly_one = Ok r)).
Proof.
  split; intros self query lang exactly_one timeout w.
  - rewrite geocode_run.
    destruct (negb (_check_query ucd query));
      [split; [now left | discriminate]|].
    destruct (urlencode bi _) as [encoded|];
      [|split; [now left | discriminate]].
    cbv zeta. cbn [fst snd]. split; [right; eexists; reflexivity|].
    intros r Hr.
    destruct (transport env _ timeout) as [resources|] eqn:Et;
      [|discriminate].
    eexists. exists resources. split; [reflexivity|]. split; assumption.
  - rewrite reverse_run.
    destruct (_coerce_point_to_string env query);
      [|split; [now left | discriminate]].
    destruct (urlencode bi _) as [encoded|];
      [|split; [now left | discriminate]].
    cbv zeta. cbn [fst snd]. split; [right; eexists; reflexivity|].
    intros r Hr.
    destruct (transport env _ timeout) as [resources|] eqn:Et;
      [|discriminate].
    eexists. exists resources. split; [reflexivity|]. split; assumption.
Qed.

(** X11. A lookup that sent a request for a URL returns what parsing
    makes of the transport's answer to that URL; a condition the transport
    raises reaches the caller unchanged. *)
Theorem lookup_is_transport_then_parse :
  (forall self query lang exactly_one timeout w url timeout',
      requests (snd (geocode ucd bi env self query lang exactly_one timeout w))
      = requests w ++ [(url, timeout')] ->
      timeout' = timeout /\
      fst (geocode ucd bi env self query lang exactly_one timeout w)
      = obind (transport env url timeout)
              (fun resources => _parse_json bi resources exactly_one) /\
      (forall e, transport env url timeout = Raise e ->
                 fst (geocode ucd bi env self query lang exactly_one timeout w)
                 = Raise e)) /\
  (forall self query lang exactly_one timeout w url timeout',
      requests (snd (reverse ucd bi env self query lang exactly_one timeout w))
      = requests w ++ [(url, timeout')] ->
      timeout' = timeout /\
      fst (reverse ucd bi env self query lang exactly_one timeout w)
      = obind (transport env url timeout)
              (fun resources => _parse_json bi resources exactly_one) /\
      (forall e, transport env url timeout = Raise e ->
                 fst (reverse ucd bi env self query lang exactly_one timeout w)
                 = Raise e)).
Proof.
  split; intros self query lang exactly_one timeout w url timeout'.
  - rewrite geocode_run.
    destruct (negb (_check_query ucd query));
      [intros H; now destruct (requests_not_extended _ _ H)|].
    destruct (urlencode bi _) as [encoded|];
      [|intros H; now destruct (requests_not_extended _ _ H)].
    cbv zeta. generalize (geocode_api self ++ lit "?" ++ encoded). intros u.
    cbn [fst snd after_request requests]. intros H.
    apply app_inv_head in H. injection H as <- <-.
    split; [reflexivity | split; [reflexivity|]]. now intros e ->.
  - rewrite reverse_run.
    destruct (_coerce_point_to_string env query);
      [|intros H; now destruct (requests_not_extended _ _ H)].
    destruct (urlencode bi _) as [encoded|];
      [|intros H; now destruct (requests_not_extended _ _ H)].
    cbv zeta. generalize (reverse_api self ++ lit "?" ++ encoded). intros u.
    cbn [fst snd after_request requests]. intros H.
    apply app_inv_head in H. injection H as <- <-.
    split; [reflexivity | split; [reflexivity|]]. now intros e ->.
Qed.

(** X12. When the point of a reverse lookup cannot be normalised, the
    condition of the normaliser is raised and nothing is logged or sent. *)
Theorem reverse_rejects_bad_point
        (self : What3Words) (query : value) (lang : str) (exactly_one : bool)
        (timeout : setting) (w : World) (e : exn) :
  _coerce_point_to_string env query = Raise e ->
  reverse ucd bi env self query lang exactly_one timeout w = (Raise e, w).
Proof.
  intros H. rewrite reverse_run, H. reflexivity.
Qed.

(** X13. The flag [exactly_one] has no part in what a lookup does to the
    world nor in the condition it raises. *)
Theorem exactly_one_changes_no_effect :
  (forall self query lang timeout w,
      snd (geocode ucd bi env self query lang true timeout w)
      = snd (geocode ucd bi env self query lang false timeout w) /\
      (forall e,
          fst (geocode ucd bi env self query lang true timeout w) = Raise e <->
          fst (geocode ucd bi env self query lang false timeout w) = Raise e)) /\
  (forall self query lang timeout w,
      snd (reverse ucd bi env self query lang true timeout w)
      = snd (reverse ucd bi env self query lang false timeout w) /\
      (forall e,
          fst (reverse ucd bi env self query lang true timeout w) = Raise e <->
          fst (reverse ucd bi env self query lang false timeout w) = Raise e)).
Proof.
  split; intros self query lang timeout w; split.
  - rewrite !geocode_run.
    destruct (negb (_check_query ucd query)); [reflexivity|].
    now destruct (urlencode bi _).
  - intros e.
    destruct (geocode_flag ucd bi env self query lang timeout w)
      as [[e' H] | [location H]]; rewrite (H true), (H false).
    + reflexivity.
    + split; discriminate.
  - rewrite !reverse_run.
    destruct (_coerce_point_to_string env query); [|reflexivity].
    now destruct (urlencode bi _).
  - intros e.
    destruct (reverse_flag ucd bi env self query lang timeout w)
      as [[e' H] | [location H]]; rewrite (H true), (H false).
    + reflexivity.
    + split; discriminate.
Qed.

(** X14. The language code is case-insensitive: two ASCII codes that
    differ in case only make the same lookup, forward and reverse. *)
Theorem language_is_case_insensitive
        (self : What3Words) (lang1 lang2 : str) (exactly_one : bool)
        (timeout : setting) (w : World) :
  forallb is_ascii lang1 = true -> forallb is_ascii lang2 = true ->
  map ascii_lower lang1 = map ascii_lower lang2 ->
  (forall query,
      geocode ucd bi env self query lang1 exactly_one timeout w
      = geocode ucd bi env self query lang2 exactly_one timeout w) /\
  (forall query,
      reverse ucd bi env self query lang1 exactly_one timeout w
      = reverse ucd bi env self query lang2 exactly_one timeout w).
Proof.
  intros H1 H2 H.
  assert (Hl : lower ucd lang1 = lower ucd lang2).
  { unfold lower. now rewrite H1, H2. }
  split; intros query.
  - unfold geocode. now rewrite Hl.
  - unfold reverse. now rewrite Hl.
Qed.

End Effects.

Lemma lookup_is_transport_then_parse_witness :
  fst (geocode ascii_only plain_builtins (failing (GeocoderTimedOut (lit "slow")))
               (client (VStr (lit "key"))) (lit "index.home.raft") (lit "en")
               true (Given (VInt 1)) fresh_world)
  = Raise (GeocoderTimedOut (lit "slow")).
Proof.
  apply (proj1 (lookup_is_transport_then_parse ascii_only plain_builtins
                  (failing (GeocoderTimedOut (lit "slow"))))
           (client (VStr (lit "key"))) (lit "index.home.raft") (lit "en")
           true (Given (VInt 1)) fresh_world
           (lit "https://api.what3words.com/v2/forward?addr=index.home.raft&lang=en&key=key")
           (Given (VInt 1))).
  - vm_compute. reflexivity.
  - reflexivity.
Defined.

Lemma reverse_rejects_bad_point_witness :
  reverse ascii_only plain_builtins (stub sample_body)
          (client (VStr (lit "key"))) VNone (lit "en") true DEFAULT_SENTINEL
          fresh_world
  = (Raise ValueError, fresh_world).
Proof.
  apply (reverse_rejects_bad_point ascii_only plain_builtins (stub sample_body)).
  reflexivity.
Defined.

Lemma language_is_case_insensitive_witness :
  geocode ascii_only plain_builtins (stub sample_body)
          (client (VStr (lit "key"))) (lit "index.home.raft") (lit "EN") true
          DEFAULT_SENTINEL fresh_world
  = geocode ascii_only plain_builtins (stub sample_body)
            (client (VStr (lit "key"))) (lit "index.home.raft") (lit "en") true
            DEFAULT_SENTINEL fresh_world.
Proof.
  apply (language_is_case_insensitive ascii_only plain_builtins
           (stub sample_body) (client (VStr (lit "key"))) (lit "EN") (lit "en")
           true DEFAULT_SENTINEL fresh_world);
    reflexivity.
Defined.

(** ** The query string *)

Section QueryString.
Variable ucd : UnicodeData.
Variable bi : Builtins.
Variable env : Collaborators.

Lemma in_range_true (lo hi c : N) :
  (lo <= c)%N -> (c <= hi)%N -> in_range lo hi c = true.
Proof.
  intros H1 H2. unfold in_range. apply andb_true_iff.
  now rewrite !N.leb_le.
Qed.

Lemma hex_digit_safe (n : N) : (n < 16)%N -> always_safe (hex_digit n) = true.
Proof.
  intros H. unfold hex_digit, always_safe, ascii_isalnum.
  destruct (N.ltb_spec n 10).
  - unfold ascii_isdecimal. rewrite (@in_range_true 48 57)%N by lia.
    now rewrite orb_true_r.
  - unfold ascii_isalpha. now rewrite (@in_range_true 65 90)%N by lia.
Qed.

Lemma Ok_inj (A : Type) (a b : A) : Ok a = Ok b -> a = b.
Proof. now intros [= ->]. Qed.

Lemma utf8_encode_char_bytes (c : N) (bs : list N) :
  utf8_encode_char c = Ok bs -> Forall (fun b => (b < 256)%N) bs.
Proof.
  unfold utf8_encode_char.
  assert (Hm : forall x, (x mod 64 < 64)%N) by (intros; apply N.mod_lt; lia).
  pose proof (Hm c). pose proof (Hm (c / 64)%N). pose proof (Hm (c / 4096)%N).
  destruct (N.ltb_spec c 128).
  { intros E. apply Ok_inj in E. subst bs.
    repeat (apply Forall_cons; [lia|]). apply Forall_nil. }
  destruct (N.ltb_spec c 2048).
  { intros E. apply Ok_inj in E. subst bs.
    assert (c / 64 < 32)%N by (apply N.Div0.div_lt_upper_bound; lia).
    repeat (apply Forall_cons; [lia|]). apply Forall_nil. }
  destruct (N.ltb_spec c 65536).
  { destruct (in_range 55296 57343 c); [discriminate|].
    intros E. apply Ok_inj in E. subst bs.
    assert (c / 4096 < 16)%N by (apply N.Div0.div_lt_upper_bound; lia).
    repeat (apply Forall_cons; [lia|]). apply Forall_nil. }
  destruct (N.ltb_spec c 1114112); [|discriminate].
  intros E. apply Ok_inj in E. subst bs.
  assert (c / 262144 < 5)%N by (apply N.Div0.div_lt_upper_bound; lia).
  repeat (apply Forall_cons; [lia|]). apply Forall_nil.
Qed.

Lemma utf8_encode_bytes (s : str) :
  forall bs, utf8_encode s = Ok bs -> Forall (fun b => (b < 256)%N) bs.
Proof.
  induction s as [|c s IH]; simpl; intros bs.
  - intros [= <-]. constructor.
  - destruct (utf8_encode_char c) as [b1|] eqn:E1; simpl; [|discriminate].
    destruct (utf8_encode s) as [b2|]; simpl; [|discriminate].
    intros [= <-]. apply Forall_app. split.
    + now apply utf8_encode_char_bytes with c.
    + now apply IH.
Qed.

Lemma quote_byte_safe (safe : str) (b : N) :
  (b < 256)%N ->
  forallb (fun c => query_safe c || existsb (N.eqb c) safe) (quote_byte safe b)
  = true.
Proof.
  intros H. unfold quote_byte.
  destruct (always_safe b || existsb (N.eqb b) safe) eqn:E; cbn [forallb].
  - unfold query_safe. apply orb_true_iff in E as [-> | ->]; simpl;
      now rewrite ?orb_true_r.
  - unfold query_safe.
    rewrite !hex_digit_safe.
    + reflexivity.
    + apply N.mod_lt; lia.
    + apply N.Div0.div_lt_upper_bound; lia.
Qed.

Lemma quote_safe (s safe q : str) :
  quote s safe = Ok q ->
  forallb (fun c => query_safe c || existsb (N.eqb c) safe) q = true.
Proof.
  unfold quote. destruct (utf8_encode s) as [bs|] eqn:E; simpl; [|discriminate].
  intros [= <-]. apply utf8_encode_bytes in E.
  induction E as [|b bs Hb _ IH]; simpl; [reflexivity|].
  rewrite forallb_app, IH, andb_true_r. now apply quote_byte_safe.
Qed.

(** Whatever the text, its percent-encoding holds none but the
    never-escaped characters (letters, digits, [_.-~]), the percent sign
    and the plus sign. *)
Lemma quote_plus_output_is_safe (s q : str) :
  quote_plus s = Ok q -> forallb query_safe q = true.
Proof.
  unfold quote_plus. destruct (existsb (N.eqb chr_space) s).
  - destruct (quote s [chr_space]) as [q0|] eqn:E; simpl; [|discriminate].
    intros [= <-]. apply quote_safe in E.
    rewrite forallb_forall in *. intros c Hc.
    apply in_map_iff in Hc as (c0 & <- & Hc0). specialize (E c0 Hc0).
    destruct (N.eqb_spec c0 chr_space); [reflexivity|].
    simpl in E. rewrite orb_false_r in E.
    apply orb_true_iff in E as [E | E]; [exact E|].
    apply N.eqb_eq in E. contradiction.
  - intros E. apply quote_safe in E.
    rewrite forallb_forall in *. intros c Hc. specialize (E c Hc).
    simpl in E. now rewrite orb_false_r in E.
Qed.

Lemma safe_count (q : str) (c : N) :
  forallb query_safe q = true -> query_safe c = false ->
  count_occ N.eq_dec q c = 0.
Proof.
  intros Hq Hc. induction q as [|x q IH]; simpl in *; [reflexivity|].
  apply andb_true_iff in Hq as [Hx Hq].
  destruct (N.eq_dec x c) as [->|]; [congruence | auto].
Qed.

Lemma urlencode_three_counts (k1 k2 k3 : str) (v1 v2 v3 : value) (encoded : str) :
  urlencode bi [(k1, v1); (k2, v2); (k3, v3)] = Ok encoded ->
  count_occ N.eq_dec encoded chr_ampersand = 2 /\
  count_occ N.eq_dec encoded chr_equals = 3 /\
  forallb (fun c => query_safe c || N.eqb c chr_ampersand || N.eqb c chr_equals)
          encoded = true.
Proof.
  unfold urlencode, urlencode_pairs.
  destruct (quote_plus k1) as [a1|] eqn:A1; simpl; [|discriminate].
  destruct (quote_plus (py_str bi v1)) as [b1|] eqn:B1; simpl; [|discriminate].
  destruct (quote_plus k2) as [a2|] eqn:A2; simpl; [|discriminate].
  destruct (quote_plus (py_str bi v2)) as [b2|] eqn:B2; simpl; [|discriminate].
  destruct (quote_plus k3) as [a3|] eqn:A3; simpl; [|discriminate].
  destruct (quote_plus (py_str bi v3)) as [b3|] eqn:B3; simpl; [|discriminate].
  intros [= <-].
  apply quote_plus_output_is_safe in A1, B1, A2, B2, A3, B3.
  assert (Hw : forall q, forallb query_safe q = true ->
                 forallb (fun c => query_safe c || N.eqb c chr_ampersand
                                   || N.eqb c chr_equals) q = true).
  { intros q Hq. rewrite forallb_forall in *. intros c Hc.
    now rewrite (Hq c Hc). }
  split; [|split].
  - repeat (rewrite count_occ_app || cbn [count_occ]).
    rewrite !(safe_count _ chr_ampersand) by (assumption || reflexivity).
    reflexivity.
  - repeat (rewrite count_occ_app || cbn [count_occ]).
    rewrite !(safe_count _ chr_equals) by (assumption || reflexivity).
    reflexivity.
  - repeat (rewrite forallb_app || cbn [forallb]).
    rewrite !Hw by assumption. reflexivity.
Qed.

End QueryString.

Section Encoding.
Variable ucd : UnicodeData.
Variable bi : Builtins.
Variable env : Collaborators.

(** X15. The URL of every request is the endpoint, a question mark and
    a query string of exactly three parameters: it holds two ampersands
    and three equals signs, whatever characters the phrase, the language,
    the point and the key contain, and nothing else but characters that
    need no escaping. *)
Theorem query_string_has_three_parameters :
  (forall self query lang exactly_one timeout w url timeout',
      requests (snd (geocode ucd bi env self query lang exactly_one timeout w))
      = requests w ++ [(url, timeout')] ->
      exists qs,
        url = geocode_api self ++ lit "?" ++ qs /\
        count_occ N.eq_dec qs chr_ampersand = 2 /\
        count_occ N.eq_dec qs chr_equals = 3 /\
        forallb (fun c => query_safe c || N.eqb c chr_ampersand
                          || N.eqb c chr_equals) qs = true) /\
  (forall self query lang exactly_one timeout w url timeout',
      requests (snd (reverse ucd bi env self query lang exactly_one timeout w))
      = requests w ++ [(url, timeout')] ->
      exists qs,
        url = reverse_api self ++ lit "?" ++ qs /\
        count_occ N.eq_dec qs chr_ampersand = 2 /\
        count_occ N.eq_dec qs chr_equals = 3 /\
        forallb (fun c => query_safe c || N.eqb c chr_ampersand
                          || N.eqb c chr_equals) qs = true).
Proof.
  split; intros self query lang exactly_one timeout w url timeout'.
  - rewrite geocode_run.
    destruct (negb (_check_query ucd query));
      [intros H; now destruct (requests_not_extended _ _ H)|].
    destruct (urlencode bi _) as [encoded|] eqn:Eu;
      [|intros H; now destruct (requests_not_extended _ _ H)].
    cbv zeta. cbn [fst snd after_request requests]. intros H.
    apply app_inv_head in H. apply (f_equal (fun l => map fst l)) in H.
    cbn [map fst] in H. apply (f_equal (fun l => hd [] l)) in H.
    cbn [hd] in H. subst url. exists encoded. split; [reflexivity|].
    exact (urlencode_three_counts bi _ _ _ _ _ _ Eu).
  - rewrite reverse_run.
    destruct (_coerce_point_to_string env query);
      [|intros H; now destruct (requests_not_extended _ _ H)].
    destruct (urlencode bi _) as [encoded|] eqn:Eu;
      [|intros H; now destruct (requests_not_extended _ _ H)].
    cbv zeta. cbn [fst snd after_request requests]. intros H.
    apply app_inv_head in H. apply (f_equal (fun l => map fst l)) in H.
    cbn [map fst] in H. apply (f_equal (fun l => hd [] l)) in H.
    cbn [hd] in H. subst url. exists encoded. split; [reflexivity|].
    exact (urlencode_three_counts bi _ _ _ _ _ _ Eu).
Qed.

Lemma always_safe_ascii (c : N) : always_safe c = true -> is_ascii c = true.
Proof.
  unfold always_safe, ascii_isalnum, ascii_isalpha, ascii_isdecimal, in_range,
    is_ascii.
  intros H. apply N.ltb_lt. cbn [existsb lit map list_ascii_of_string] in H.
  rewrite !orb_true_iff, !andb_true_iff, !N.leb_le, !N.eqb_eq in H.
  cbn in H. lia.
Qed.

Lemma utf8_encode_ascii (s : str) :
  forallb is_ascii s = true -> utf8_encode s = Ok s.
Proof.
  induction s as [|c s IH]; simpl; [reflexivity|].
  intros H. apply andb_true_iff in H as [Hc Hs].
  unfold utf8_encode_char. unfold is_ascii in Hc. rewrite Hc. simpl.
  now rewrite IH.
Qed.

Lemma quote_bytes_safe (s safe : str) :
  forallb always_safe s = true -> flat_map (quote_byte safe) s = s.
Proof.
  induction s as [|c s IH]; simpl; [reflexivity|].
  intros H. apply andb_true_iff in H as [Hc Hs].
  unfold quote_byte at 1. rewrite Hc. simpl. now rewrite IH.
Qed.

(** A text of never-escaped characters is its own encoding. *)
Lemma quote_plus_safe_text (s : str) :
  forallb always_safe s = true -> quote_plus s = Ok s.
Proof.
  intros H.
  assert (Ha : forallb is_ascii s = true).
  { rewrite forallb_forall in *. intros c Hc. now apply always_safe_ascii, H. }
  assert (Hsp : existsb (N.eqb chr_space) s = false).
  { apply not_true_is_false. intros E.
    apply existsb_exists in E as (c & Hc & E). apply N.eqb_eq in E. subst c.
    rewrite forallb_forall in H. specialize (H _ Hc). discriminate. }
  unfold quote_plus, quote. rewrite Hsp, (utf8_encode_ascii _ Ha). simpl.
  now rewrite quote_bytes_safe.
Qed.

Lemma ascii_letter_safe (c : N) :
  is_ascii c = true -> is_letter ucd c = true -> always_safe c = true.
Proof.
  unfold is_letter, isalnum, always_safe. intros ->.
  destruct (ascii_isalnum c); [reflexivity | discriminate].
Qed.

(** X16. A three-word address written in ASCII letters travels as it
    is: its percent-encoding is the address itself. *)
Theorem ascii_address_is_sent_verbatim (w1 w2 w3 : str) :
  word_group ucd w1 -> word_group ucd w2 -> word_group ucd w3 ->
  forallb is_ascii (three_words w1 w2 w3) = true ->
  _check_query ucd (three_words w1 w2 w3) = true /\
  quote_plus (three_words w1 w2 w3) = Ok (three_words w1 w2 w3).
Proof.
  intros [N1 L1] [N2 L2] [N3 L3] Ha. split.
  - apply check_query_iff. exists w1, w2, w3, [].
    unfold word_group, three_words. rewrite app_nil_r. auto 10.
  - apply quote_plus_safe_text.
    assert (Hl : forall w, forallb (is_letter ucd) w = true ->
                           forallb is_ascii w = true ->
                           forallb always_safe w = true).
    { intros w Hw Haw. rewrite forallb_forall in *. intros c Hc.
      apply ascii_letter_safe; auto. }
    unfold three_words in *.
    repeat (rewrite forallb_app in Ha; cbn [forallb lit map list_ascii_of_string]
                                         in Ha).
    rewrite !andb_true_iff in Ha. destruct Ha as (A1 & _ & A2 & _ & A3).
    repeat (rewrite forallb_app; cbn [forallb lit map list_ascii_of_string]).
    rewrite !Hl by assumption. reflexivity.
Qed.

End Encoding.

Section Unencodable.
Variable ucd : UnicodeData.
Variable bi : Builtins.
Variable env : Collaborators.






End Unencodable.

Lemma query_string_has_three_parameters_witness :
  exists qs,
    lit "https://api.what3words.com/v2/forward?addr=index.home.raft&lang=en&key=a%26b%3Dc"
    = geocode_api (client (VStr (lit "a&b=c"))) ++ lit "?" ++ qs /\
    count_occ N.eq_dec qs chr_ampersand = 2 /\
    count_occ N.eq_dec qs chr_equals = 3 /\
    forallb (fun c => query_safe c || N.eqb c chr_ampersand
                      || N.eqb c chr_equals) qs = true.
Proof.
  apply (proj1 (query_string_has_three_parameters
                  ascii_only plain_builtins (stub sample_body))
           (client (VStr (lit "a&b=c"))) (lit "index.home.raft") (lit "en")
           true DEFAULT_SENTINEL fresh_world _ DEFAULT_SENTINEL).
  vm_compute. reflexivity.
Defined.

Lemma ascii_address_is_sent_verbatim_witness :
  quote_plus (three_words (lit "index") (lit "home") (lit "raft"))
  = Ok (three_words (lit "index") (lit "home") (lit "raft")).
Proof.
  apply (@ascii_address_is_sent_verbatim ascii_only
           (lit "index") (lit "home") (lit "raft"));
    try (split; (discriminate || reflexivity)); reflexivity.
Defined.

